(** * pretext/cli.py: the command-line front end of the PreTeXt CLI

    A shallow embedding of the commands [new], [init], [build] and [view]
    of [pretext/cli.py], and theorems about how [build] resolves its
    configuration, when it exits, and what it does to the file system.

    A command is modelled as the function that click calls, run in the
    working directory that the group callback [main] has chosen.  The
    modules that [cli.py] imports are parameters of the commands.

    Layout of the development:
    - [PyStr]     : the Python string operations the commands use;
    - [PosixPath] : [os.path] for POSIX paths;
    - [Xml]       : lxml elements and the queries made on them;
    - [Fs]        : a file system keyed by normalised absolute paths;
    - [Prog]      : the monad of commands (file-system state, a trace of
                    observable events, and the three ways a command ends);
    - the commands, stage by stage for [build];
    - the properties of runs and a sample project;
    - the theorems. *)

From Stdlib Require Import String Ascii List Bool.
From stdpp Require Import base option gmap strings list.

Local Open Scope string_scope.
Local Open Scope list_scope.

(** ** Python strings *)

Module PyStr.

(** The double-quote character, for messages that contain it. *)
Definition dquote : string := String "034"%char EmptyString.

(** [str.isspace].  A string of the model is a sequence of code points
    below 256; among these the white space of Python is tab, newline,
    vertical tab, form feed, carriage return, the four separators
    0x1c-0x1f, space, next line (0x85) and no-break space (0xa0). *)
Definition is_space (c : ascii) : bool :=
  let n := nat_of_ascii c in
  ((9 <=? n)%nat && (n <=? 13)%nat) || ((28 <=? n)%nat && (n <=? 32)%nat)
  || (n =? 133)%nat || (n =? 160)%nat.

Fixpoint lstrip (s : string) : string :=
  match s with
  | EmptyString => EmptyString
  | String c s' => if is_space c then lstrip s' else s
  end.

Fixpoint rstrip (s : string) : string :=
  match s with
  | EmptyString => EmptyString
  | String c s' =>
      match rstrip s' with
      | EmptyString => if is_space c then EmptyString else String c EmptyString
      | r => String c r
      end
  end.

(** [s.strip()] *)
Definition strip (s : string) : string := rstrip (lstrip s).

(** [s.split(sep)] for a one-character separator: never empty. *)
Fixpoint split (sep : ascii) (s : string) : list string :=
  match s with
  | EmptyString => [EmptyString]
  | String c s' =>
      if Ascii.eqb c sep then EmptyString :: split sep s'
      else match split sep s' with
           | h :: t => String c h :: t
           | [] => [String c EmptyString]
           end
  end.

(** [sep.join(l)] *)
Fixpoint join (sep : string) (l : list string) : string :=
  match l with
  | [] => EmptyString
  | [x] => x
  | x :: l' => x +:+ sep +:+ join sep l'
  end.

(** [s.startswith(p)] *)
Definition startswith (p s : string) : bool := String.prefix p s.

(** [s.endswith("/")] *)
Fixpoint ends_with (c : ascii) (s : string) : bool :=
  match s with
  | EmptyString => false
  | String d EmptyString => Ascii.eqb d c
  | String _ s' => ends_with c s'
  end.

(** [s.rstrip(c)] for a single character [c]. *)
Fixpoint rstrip_char (c : ascii) (s : string) : string :=
  match s with
  | EmptyString => EmptyString
  | String d s' =>
      match rstrip_char c s' with
      | EmptyString => if Ascii.eqb d c then EmptyString else String d EmptyString
      | r => String d r
      end
  end.

(** [s == c * len(s)] *)
Fixpoint all_char (c : ascii) (s : string) : bool :=
  match s with
  | EmptyString => true
  | String d s' => Ascii.eqb d c && all_char c s'
  end.

(** [str(x)] / the rendering of [x] inside an f-string, for a value that
    is a string or [None]. *)
Definition fmt (x : option string) : string :=
  match x with
  | Some s => s
  | None => "None"
  end.

End PyStr.

(** ** os.path, POSIX flavour *)

Module PosixPath.
Import PyStr.

Definition sep : ascii := "/"%char.

Definition isabs (p : string) : bool := startswith "/" p.

(** One step of [os.path.join]: [join2 a b]. *)
Definition join2 (a b : string) : string :=
  if startswith "/" b then b
  else if String.eqb a EmptyString || ends_with sep a then a +:+ b
  else a +:+ "/" +:+ b.

(** [os.path.join(a, *p)] *)
Definition join (a : string) (p : list string) : string :=
  fold_left join2 p a.

(** Splits at the last slash: [Some (p[:i], p[i:])] with
    [i = p.rfind('/') + 1], or [None] when [p] has no slash. *)
Fixpoint rsplit (p : string) : option (string * string) :=
  match p with
  | EmptyString => None
  | String c p' =>
      match rsplit p' with
      | Some (h, t) => Some (String c h, t)
      | None => if Ascii.eqb c sep then Some (String c EmptyString, p') else None
      end
  end.

Definition dirname (p : string) : string :=
  match rsplit p with
  | None => EmptyString
  | Some (head, _) => if all_char sep head then head else rstrip_char sep head
  end.

Definition basename (p : string) : string :=
  match rsplit p with
  | None => p
  | Some (_, tail) => tail
  end.

(** The loop of [normpath] over the components; [new_comps] is kept
    reversed (last component first). *)
Fixpoint norm_comps (initial_slashes : nat) (comps new_comps : list string)
  : list string :=
  match comps with
  | [] => rev new_comps
  | comp :: rest =>
      if String.eqb comp EmptyString || String.eqb comp "." then
        norm_comps initial_slashes rest new_comps
      else if negb (String.eqb comp "..")
              || ((initial_slashes =? 0)%nat && match new_comps with [] => true | _ => false end)
              || match new_comps with l :: _ => String.eqb l ".." | [] => false end
      then norm_comps initial_slashes rest (comp :: new_comps)
      else norm_comps initial_slashes rest (tl new_comps)
  end.

Definition normpath (path : string) : string :=
  if String.eqb path EmptyString then "."
  else
    let initial_slashes :=
      if startswith "/" path then
        if startswith "//" path && negb (startswith "///" path) then 2 else 1
      else 0 in
    let comps := norm_comps initial_slashes (PyStr.split sep path) [] in
    let body := PyStr.join "/" comps in
    let path' :=
      match initial_slashes with
      | 0 => body
      | 1 => "/" +:+ body
      | _ => "//" +:+ body
      end in
    if String.eqb path' EmptyString then "." else path'.

(** [os.path.abspath(path)] in working directory [cwd]. *)
Definition abspath (cwd path : string) : string :=
  normpath (if isabs path then path else join2 cwd path).

End PosixPath.

(** ** lxml elements *)

Module Xml.

(** An element: its tag, its attributes ([e.attrib]), its text ([e.text],
    [None] when the element has no text) and its child elements. *)
#[warnings="-register-all"]
Inductive element : Type :=
| Element (tag : string) (attrib : gmap string string)
          (text : option string) (children : list element).

Definition tag (e : element) : string :=
  match e with Element t _ _ _ => t end.
Definition attrib (e : element) : gmap string string :=
  match e with Element _ a _ _ => a end.
Definition text (e : element) : option string :=
  match e with Element _ _ x _ => x end.
Definition children (e : element) : list element :=
  match e with Element _ _ _ cs => cs end.

Definition has_tag (name : string) (e : element) : bool :=
  String.eqb (tag e) name.

(** [e.get(key)] *)
Definition get (key : string) (e : element) : option string :=
  attrib e !! key.

(** Children of [e] with the given tag, in document order. *)
Definition children_named (name : string) (e : element) : list element :=
  List.filter (has_tag name) (children e).

(** [e.find(name)] for a path of one step: the first child with that tag. *)
Definition find (name : string) (e : element) : option element :=
  head (children_named name e).

(** All matches of a relative path of child steps, in document order. *)
Fixpoint findall_path (steps : list string) (es : list element) : list element :=
  match steps with
  | [] => es
  | name :: steps' => findall_path steps' (List.flat_map (children_named name) es)
  end.

(** [root.find('a/b')]: the first match of the path. *)
Definition find_path (steps : list string) (root : element) : option element :=
  head (findall_path steps [root]).

(** [tree.xpath('/a/b/c')]: an absolute path, whose first step names the
    root element. *)
Definition xpath_abs (steps : list string) (root : element) : list element :=
  match steps with
  | [] => []
  | name :: steps' =>
      if has_tag name root then findall_path steps' [root] else []
  end.

(** The element and everything below it, in document order: the candidates
    of an XPath [//] step. *)
Fixpoint descendants (e : element) : list element :=
  match e with
  | Element _ _ _ cs => e :: List.flat_map descendants cs
  end.

(** [len(tree.xpath('//asymptote|//latex-image|//sageplot')) > 0] *)
Definition has_generated_images (root : element) : bool :=
  existsb (fun e => has_tag "asymptote" e || has_tag "latex-image" e
                    || has_tag "sageplot" e)
          (descendants root).

(** [len(tree.xpath('//asymptote|//sageplot|//video[@youtube]|//interactive[not(@preview)]')) > 0] *)
Definition needs_preview (root : element) : bool :=
  existsb (fun e => has_tag "asymptote" e || has_tag "sageplot" e
                    || (has_tag "video" e && bool_decide (is_Some (get "youtube" e)))
                    || (has_tag "interactive" e && bool_decide (get "preview" e = None)))
          (descendants root).

End Xml.

(** ** The file system *)

Module Fs.

Inductive node : Type :=
| File (data : string)
| Dir.

(** A file system maps normalised absolute paths to what is there: the
    keys are paths as the system itself would name them, with single
    slashes.  There are no links, and names are case-sensitive. *)
Abbreviation FS := (gmap string node).

(** The key under which the system finds the path [p]: a run of slashes
    counts as one slash.  [os.path.normpath] keeps two slashes at the start
    of a path, so [os.path.abspath] may hand over [//proj], which the system
    resolves to [/proj]. *)
Fixpoint resolve (p : string) : string :=
  match p with
  | EmptyString => EmptyString
  | String c p' =>
      match p' with
      | String d _ =>
          if Ascii.eqb c "/" && Ascii.eqb d "/" then resolve p'
          else String c (resolve p')
      | EmptyString => String c EmptyString
      end
  end.

(** [os.path.isfile(p)] *)
Definition isfile (fs : FS) (p : string) : bool :=
  match fs !! resolve p with
  | Some (File _) => true
  | _ => false
  end.

(** [os.path.isdir(p)] *)
Definition isdir (fs : FS) (p : string) : bool :=
  match fs !! resolve p with
  | Some Dir => true
  | _ => false
  end.

(** [under d q]: as the system resolves the two paths, [q] is [d] itself
    or lies inside the tree below [d]. *)
Definition under (d q : string) : bool :=
  let d := resolve d in
  let q := resolve q in
  String.eqb d q
  || String.prefix (if PyStr.ends_with "/" d then d else d +:+ "/") q.

(** [shutil.rmtree(d)]: everything at and below [d] is gone. *)
Definition rmtree (d : string) (fs : FS) : FS :=
  filter (fun kv => under d kv.1 = false) fs.

(** [shutil.copyfile(src, dst)]: the file system it leaves, or [None] when
    it raises: [src] is not a file, [src] and [dst] are the same file,
    [dst] is a directory, or the directory of [dst] does not exist. *)
Definition copyfile (src dst : string) (fs : FS) : option FS :=
  match fs !! resolve src with
  | Some (File data) =>
      if String.eqb (resolve src) (resolve dst) then None
      else
        match fs !! resolve dst with
        | Some Dir => None
        | _ =>
            if isdir fs (PosixPath.dirname dst)
            then Some (<[resolve dst := File data]> fs)
            else None
        end
  | _ => None
  end.

End Fs.

(** ** Commands as programs *)

Module Prog.
Import Fs.

(** The exceptions the commands can meet. *)
Inductive exn : Type :=
| TypeError
| KeyError (key : string)
| AttributeError
| IndexError
| ValueError
| FileNotFoundError (path : string)
| OtherError (what : string).

(** [str(e)] for the exception caught at the WeBWorK server lookup:
    [str(KeyError('server'))] is the key in single quotes. *)
Definition exn_str (e : exn) : string :=
  match e with
  | TypeError => "TypeError"
  | KeyError k => "'" +:+ k +:+ "'"
  | AttributeError => "AttributeError"
  | IndexError => "list index out of range"
  | ValueError => "ValueError"
  | FileNotFoundError p => p
  | OtherError w => w
  end.

(** How a call ends: it returns, [sys.exit(msg)] was called, or an exception
    is on its way up. *)
Inductive outcome (A : Type) : Type :=
| Ret (a : A)
| Exit (msg : string)
| Raise (e : exn).
Arguments Ret {A} a.
Arguments Exit {A} msg.
Arguments Raise {A} e.

Inductive level : Type := DEBUG | INFO | WARNING | ERROR | CRITICAL.

(** A call to the transformation engine ([pretext.build], imported as
    [builder]), with its arguments in the order of the call. *)
Inductive engine_call : Type :=
| Webwork (source publication webwork_output : string)
          (stringparams : gmap string string) (server_params : string)
| Diagrams (source publication generated_assets : string)
           (stringparams : gmap string string) (diagrams_format : string)
| Html (source publication output : string) (stringparams : gmap string string)
| Latex (source publication output : string) (stringparams : gmap string string)
| Pdf (source publication output : string) (stringparams : gmap string string).

Definition engine_source (c : engine_call) : string :=
  match c with
  | Webwork s _ _ _ _ | Diagrams s _ _ _ _ | Html s _ _ _ | Latex s _ _ _
  | Pdf s _ _ _ => s
  end.

Definition engine_publication (c : engine_call) : string :=
  match c with
  | Webwork _ p _ _ _ | Diagrams _ p _ _ _ | Html _ p _ _ | Latex _ p _ _
  | Pdf _ p _ _ => p
  end.

(** What a command is seen to do, in order.  An engine call records the file
    system it was started on. *)
Inductive event : Type :=
| EvLog (lvl : level) (msg : string)
| EvXmlSyntaxCheck (source : string)
| EvSchemaValidate (source : string)
| EvEnsureDirectory (path : string)
| EvRmtree (path : string)
| EvEngine (c : engine_call) (seen : FS)
| EvCopyfile (src dst : string)
| EvHttpGet (url : string)
| EvExtract (member path : string)
| EvCopytree (src dst : string)
| EvRunServer (directory access : string) (port : Z)
| EvTargetView (access : string) (port : Z) (watch : bool).

Definition is_engine (e : event) : bool :=
  match e with EvEngine _ _ => true | _ => false end.

Definition is_log (e : event) : bool :=
  match e with EvLog _ _ => true | _ => false end.

Definition is_rmtree (e : event) : bool :=
  match e with EvRmtree _ => true | _ => false end.

(** A program runs on a file system and yields how it ended, the file system
    it leaves, and the events it produced. *)
Definition prog (A : Type) : Type := FS -> outcome A * FS * list event.

Definition ret {A} (a : A) : prog A := fun fs => (Ret a, fs, []).

Definition bind {A B} (m : prog A) (k : A -> prog B) : prog B :=
  fun fs =>
    match m fs with
    | (Ret a, fs1, t1) =>
        match k a fs1 with
        | (r, fs2, t2) => (r, fs2, t1 ++ t2)
        end
    | (Exit msg, fs1, t1) => (Exit msg, fs1, t1)
    | (Raise e, fs1, t1) => (Raise e, fs1, t1)
    end.

(** [sys.exit(msg)] *)
Definition sys_exit {A} (msg : string) : prog A := fun fs => (Exit msg, fs, []).

(** [raise e] *)
Definition raise {A} (e : exn) : prog A := fun fs => (Raise e, fs, []).

Definition emit (e : event) : prog unit := fun fs => (Ret tt, fs, [e]).

(** [log.<level>(msg)] *)
Definition log (lvl : level) (msg : string) : prog unit := emit (EvLog lvl msg).

(** A call that only reads the file system. *)
Definition query {A} (f : FS -> outcome A) : prog A := fun fs => (f fs, fs, []).

(** A call that may change the file system. *)
Definition effect {A} (f : FS -> outcome A * FS) : prog A :=
  fun fs => let '(r, fs') := f fs in (r, fs', []).

(** A test on the file system, such as [os.path.isdir]. *)
Definition test (f : FS -> bool) : prog bool := fun fs => (Ret (f fs), fs, []).

(** A value that may be missing: [x.attr] on [None], [d[k]] on a missing key. *)
Definition unwrap {A} (e : exn) (x : option A) : prog A :=
  match x with
  | Some a => ret a
  | None => raise e
  end.

(** [try: m  except Exception as e: h e] *)
Definition try_except {A} (m : prog A) (h : exn -> prog A) : prog A :=
  fun fs =>
    match m fs with
    | (Raise e, fs1, t1) =>
        match h e fs1 with
        | (r, fs2, t2) => (r, fs2, t1 ++ t2)
        end
    | other => other
    end.

(** [try: m  except: h], the bare form, which also catches [SystemExit]. *)
Definition try_except_all {A} (m : prog A) (h : prog A) : prog A :=
  fun fs =>
    match m fs with
    | (Ret a, fs1, t1) => (Ret a, fs1, t1)
    | (_, fs1, t1) =>
        match h fs1 with
        | (r, fs2, t2) => (r, fs2, t1 ++ t2)
        end
    end.

(** [try: m  finally: c], as the exit of a [with] block runs [c]. *)
Definition finally {A} (m : prog A) (c : prog unit) : prog A :=
  fun fs =>
    match m fs with
    | (r, fs1, t1) =>
        match c fs1 with
        | (Ret _, fs2, t2) => (r, fs2, t1 ++ t2)
        | (Exit msg, fs2, t2) => (Exit msg, fs2, t1 ++ t2)
        | (Raise e, fs2, t2) => (Raise e, fs2, t1 ++ t2)
        end
    end.

(** [for x in l: body x] *)
Fixpoint for_each {A} (l : list A) (body : A -> prog unit) : prog unit :=
  match l with
  | [] => ret tt
  | x :: l' => bind (body x) (fun _ => for_each l' body)
  end.

Definition result {A} (r : outcome A * FS * list event) : outcome A := r.1.1.
Definition final_fs {A} (r : outcome A * FS * list event) : FS := r.1.2.
Definition trace {A} (r : outcome A * FS * list event) : list event := r.2.

End Prog.

Declare Scope prog_scope.
Delimit Scope prog_scope with prog.
Notation "x <- c1 ;; c2" := (Prog.bind c1 (fun x => c2))
  (at level 100, c1 at next level, right associativity) : prog_scope.
Notation "c1 ;; c2" := (Prog.bind c1 (fun _ => c2))
  (at level 100, right associativity) : prog_scope.

Import Fs Prog.
Local Open Scope prog_scope.

(** ** What [cli.py] imports

    The modules [pretext.utils], [pretext.build], [pretext.project] and
    [pretext.static], and the libraries lxml, requests, zipfile, tempfile and
    [shutil.copytree], are taken as given: each call is a function of the file
    system it runs on.  The locator, the manifest readers, the two validators
    and the XML parser only read; the others may also write. *)
Record externals : Type := {
  (** [static.__file__] *)
  static_file : string;
  (** [utils.project_path(dirpath)], [None] standing for the default argument *)
  utils_project_path : option string -> FS -> outcome (option string);
  (** [utils.project_xml()]: the root element of the manifest *)
  utils_project_xml : FS -> outcome Xml.element;
  (** [utils.target_xml(alias=...)] *)
  utils_target_xml : option string -> FS -> outcome (option Xml.element);
  utils_xml_syntax_check : string -> FS -> outcome unit;
  utils_schema_validate : string -> FS -> outcome unit;
  utils_ensure_directory : string -> FS -> outcome unit * FS;
  utils_run_server : string -> string -> Z -> FS -> outcome unit * FS;
  (** [builder.webwork], [builder.diagrams], [builder.html], [builder.latex]
      and [builder.pdf] *)
  builder : engine_call -> FS -> outcome unit * FS;
  (** [Project()], [project.target(name=...)] and [target.view(...)] *)
  project : Type;
  project_target_t : Type;
  Project : FS -> outcome project;
  project_target : project -> option string -> FS -> outcome (option project_target_t);
  target_view : project_target_t -> string -> Z -> bool -> FS -> outcome unit * FS;
  (** [ET.parse(path)], giving the root element, and [tree.xinclude()] *)
  ET_parse : string -> FS -> outcome Xml.element;
  ET_xinclude : Xml.element -> FS -> outcome Xml.element;
  (** [requests.get(url).content], [zipfile.ZipFile] on bytes and on a path,
      [archive.namelist()], [archive.extract(member, path=...)],
      [tempfile.TemporaryDirectory()] and [shutil.copytree(..., dirs_exist_ok=True)] *)
  zip_archive : Type;
  requests_get : string -> outcome string;
  ZipFile_bytes : string -> outcome zip_archive;
  ZipFile_path : string -> FS -> outcome zip_archive;
  namelist : zip_archive -> list string;
  archive_extract : zip_archive -> string -> string -> FS -> outcome unit * FS;
  TemporaryDirectory : FS -> outcome string * FS;
  shutil_copytree : string -> string -> FS -> outcome unit * FS
}.

(** The arguments of [pretext new]. *)
Inductive template : Type := book | article.

Definition template_name (t : template) : string :=
  match t with book => "book" | article => "article" end.

Record new_args : Type := {
  new_template : template;
  new_directory : string;
  new_url_template : option string
}.

(** The arguments of [pretext build]; an option that was not given is [None]. *)
Record build_args : Type := {
  arg_target : option string;
  arg_source : option string;
  arg_output : option string;
  arg_param : list string;
  arg_publication : option string;
  arg_webwork : bool;
  arg_diagrams : bool;
  arg_diagrams_format : string;
  arg_only_assets : bool;
  arg_pdf : bool
}.

(** The arguments of [pretext view]. *)
Record view_args : Type := {
  view_target : option string;
  view_access : string;
  view_port : Z;
  view_directory : option string;
  view_watch : bool
}.

(** The local variables of [build] after the manifest has been located and
    the target named (lines 134-157). *)
Record located : Type := {
  loc_manifest_dir : option string;
  loc_manifest : option string;
  loc_target : option string;
  loc_source : option string;
  loc_output : option string
}.

(** The local variables of [build] once the build information has been
    pulled from the manifest (lines 159-188). *)
Record resolved : Type := {
  res_target : option string;
  res_source : string;
  res_output : string;
  res_publication : option string;
  res_target_format : option string
}.

(** The local variables of [build] when the output directory is about to be
    cleared (lines 190-219): absolute source and output, the publication
    file that will be used, and the string parameters. *)
Record prepared : Type := {
  pre_source : string;
  pre_output : string;
  pre_publication : string;
  pre_stringparams : gmap string string
}.

(** [p.split(":")] turned into a key and a value, as the dictionary
    comprehension of line 197 does. *)
Definition param_entry (p : string) : string * string :=
  let l := PyStr.split ":" p in
  (PyStr.strip (hd EmptyString l), PyStr.strip (PyStr.join ":" (tl l))).

(** [stringparams]: later parameters replace earlier ones with the same key. *)
Definition stringparams_of (param : list string) : gmap string string :=
  fold_left (fun d kv => <[kv.1 := kv.2]> d) (List.map param_entry param) ∅.

(** [x == s] for a value [x] that is a string or [None]. *)
Definition str_is (x : option string) (s : string) : bool :=
  match x with
  | Some y => String.eqb y s
  | None => false
  end.

(** [l.index(x)] *)
Fixpoint index_of (x : string) (l : list string) : option nat :=
  match l with
  | [] => None
  | y :: l' => if String.eqb y x then Some 0 else S <$> index_of x l'
  end.

(** [shutil.rmtree(path)] *)
Definition shutil_rmtree (path : string) : prog unit :=
  fun fs => (Ret tt, rmtree path fs, [EvRmtree path]).

(** The exception of a [shutil.copyfile(src, dst)] that fails: the same
    file twice; then what opening [src] for reading raises; then what
    opening [dst] for writing raises. *)
Definition copyfile_error (src dst : string) (fs : FS) : exn :=
  match fs !! resolve src with
  | None => FileNotFoundError src
  | Some Dir =>
      if String.eqb (resolve src) (resolve dst) then OtherError "SameFileError"
      else OtherError "IsADirectoryError"
  | Some (File _) =>
      if String.eqb (resolve src) (resolve dst) then OtherError "SameFileError"
      else if isdir fs dst then OtherError "IsADirectoryError"
      else if isfile fs (PosixPath.dirname dst) then OtherError "NotADirectoryError"
      else FileNotFoundError dst
  end.

(** [shutil.copyfile(src, dst)] *)
Definition shutil_copyfile (src dst : string) : prog unit :=
  fun fs =>
    match copyfile src dst fs with
    | Some fs' => (Ret tt, fs', [EvCopyfile src dst])
    | None => (Raise (copyfile_error src dst fs), fs, [])
    end.

Definition webwork_default_server : string := "https://webwork-ptx.aimath.org".

(** ** The commands *)

Section Commands.

(** The working directory ([os.getcwd()]) and the imported modules. *)
Context (cwd : string) (E : externals).

Definition abspath (p : string) : string := PosixPath.abspath cwd p.

(** A call to the engine: the event records the file system the engine is
    started on. *)
Definition engine (c : engine_call) : prog unit :=
  fun fs => let '(r, fs') := builder E c fs in (r, fs', [EvEngine c fs]).

(** [utils.ensure_directory(path)] *)
Definition ensure_directory (path : string) : prog unit :=
  emit (EvEnsureDirectory path) ;;
  effect (utils_ensure_directory E path).

(** *** pretext new (lines 58-88) *)
Definition new (a : new_args) : prog unit :=
  let directory := new_directory a in
  let directory_fullpath := abspath directory in
  found <- query (utils_project_path E (Some directory_fullpath)) ;;
  match found with
  | Some _ =>
      where_ <- query (utils_project_path E (Some directory_fullpath)) ;;
      log WARNING ("A project already exists in `" +:+ PyStr.fmt where_ +:+ "`.") ;;
      log WARNING "No new project will be generated."
  | None =>
      log INFO ("Generating new PreTeXt project in `" +:+ directory_fullpath
                +:+ "` using `" +:+ template_name (new_template a) +:+ "` template.") ;;
      let static_dir := PosixPath.dirname (static_file E) in
      archive <-
        match new_url_template a with
        | Some url_template =>
            emit (EvHttpGet url_template) ;;
            content <- query (fun _ => requests_get E url_template) ;;
            query (fun _ => ZipFile_bytes E content)
        | None =>
            let template_path :=
              PosixPath.join static_dir
                ["templates"; template_name (new_template a) +:+ ".zip"] in
            query (ZipFile_path E template_path)
        end ;;
      (* find (first) project.ptx to use as root of template *)
      let filenames := List.map PosixPath.basename (namelist E archive) in
      project_ptx_index <- unwrap ValueError (index_of "project.ptx" filenames) ;;
      project_ptx_path <- unwrap IndexError (namelist E archive !! project_ptx_index) ;;
      let project_dir_path := PosixPath.dirname project_ptx_path in
      tmpdirname <- effect (TemporaryDirectory E) ;;
      finally
        (for_each
           (List.filter (PyStr.startswith project_dir_path) (namelist E archive))
           (fun filepath =>
              emit (EvExtract filepath tmpdirname) ;;
              effect (archive_extract E archive filepath tmpdirname)) ;;
         let tmpsubdirname := PosixPath.join tmpdirname [project_dir_path] in
         emit (EvCopytree tmpsubdirname directory) ;;
         effect (shutil_copytree E tmpsubdirname directory))
        (shutil_rmtree tmpdirname) ;;
      log INFO ("Success! Open `" +:+ directory_fullpath
                +:+ "/source/main.ptx` to edit your document") ;;
      log INFO ("Then try to `pretext build` and `pretext view` from within `"
                +:+ directory_fullpath +:+ "`.")
  end.

(** *** pretext init (lines 92-108) *)
Definition init : prog unit :=
  let directory_fullpath := abspath "." in
  found <- query (utils_project_path E (Some directory_fullpath)) ;;
  match found with
  | Some _ =>
      where_ <- query (utils_project_path E (Some directory_fullpath)) ;;
      log WARNING ("A project already exists in `" +:+ PyStr.fmt where_ +:+ "`.") ;;
      log WARNING "No project manifest will be generated."
  | None =>
      log INFO ("Generating new PreTeXt manifest in `" +:+ directory_fullpath +:+ "`.") ;;
      let static_dir := PosixPath.dirname (static_file E) in
      let manifest_path := PosixPath.join static_dir ["templates"; "project.ptx"] in
      let project_ptx_path := PosixPath.join directory_fullpath ["project.ptx"] in
      shutil_copyfile manifest_path project_ptx_path ;;
      log INFO ("Success! Open `" +:+ project_ptx_path +:+ "` to edit your manifest.") ;;
      log INFO "Edit your <target/>s to point to your PreTeXt source and publication files."
  end.

(** *** pretext build (lines 126-260) *)

(** Lines 134-157: locate the manifest, fill in the defaults used without
    one, and name the target when none was given.  (Line 150 also sets
    [target_format]; lines 182-188 set it again in every run that gets
    there, so it is not carried along.) *)
Definition build_locate (a : build_args) : prog located :=
  (* locate manifest: *)
  manifest_dir <- query (utils_project_path E None) ;;
  loc <-
    match manifest_dir with
    | None =>
        log WARNING "No project manifest was found.  Run `pretext init` to generate one." ;;
        (* if no target has been specified, set to old default of html.
           Then set any other defaults *)
        let target := match arg_target a with None => "html" | Some t => t end in
        let source := match arg_source a with None => "source/main.ptx" | Some s => s end in
        let output := match arg_output a with None => "output/" +:+ target | Some o => o end in
        if negb (String.eqb target "html") && negb (String.eqb target "latex") then
          log CRITICAL ("Without a project manifest, you can only build "
                        +:+ PyStr.dquote +:+ "html" +:+ PyStr.dquote +:+ " or "
                        +:+ PyStr.dquote +:+ "latex" +:+ PyStr.dquote +:+ ".  Exiting...") ;;
          sys_exit "`pretext build` did not complete.  Please try again."
        else
          ret {| loc_manifest_dir := None; loc_manifest := None;
                 loc_target := Some target; loc_source := Some source;
                 loc_output := Some output |}
    | Some _ =>
        ret {| loc_manifest_dir := manifest_dir; loc_manifest := Some "project.ptx";
               loc_target := arg_target a; loc_source := arg_source a;
               loc_output := arg_output a |}
    end ;;
  (* Now check if no target was provided, in which case, set to first
     target of manifest *)
  match loc_target loc with
  | None =>
      project_xml <- query (utils_project_xml E) ;;
      first <- unwrap AttributeError (Xml.find_path ["targets"; "target"] project_xml) ;;
      let target := Xml.get "name" first in
      log INFO ("Since no build target was supplied, we will build " +:+ PyStr.fmt target
                +:+ ", the first target of the project manifest "
                +:+ PyStr.fmt (loc_manifest loc) +:+ " in "
                +:+ PyStr.fmt (loc_manifest_dir loc)) ;;
      ret {| loc_manifest_dir := loc_manifest_dir loc; loc_manifest := loc_manifest loc;
             loc_target := target; loc_source := loc_source loc;
             loc_output := loc_output loc |}
  | Some _ => ret loc
  end.

(** [utils.target_xml(alias=target).find(child).text.strip()] *)
Definition target_child_text (target : option string) (child : string) : prog string :=
  t <- query (utils_target_xml E target) ;;
  t <- unwrap AttributeError t ;;
  c <- unwrap AttributeError (Xml.find child t) ;;
  x <- unwrap AttributeError (Xml.text c) ;;
  ret (PyStr.strip x).

(** Lines 159-188: leave when the target is not in the manifest; otherwise
    take from the manifest what the command line did not give. *)
Definition build_pull (a : build_args) (loc : located) : prog resolved :=
  let target := loc_target loc in
  (* if the project manifest doesn't have the target alias, exit build *)
  t <- query (utils_target_xml E target) ;;
  match t with
  | None =>
      log CRITICAL "Build target does not exist in project manifest project.ptx" ;;
      sys_exit "Exiting without completing task."
  | Some _ => ret tt
  end ;;
  (* Pull build info (source/output/params/etc) when not already supplied by user: *)
  log DEBUG ("source = " +:+ PyStr.fmt (loc_source loc) +:+ ", output = "
             +:+ PyStr.fmt (loc_output loc) +:+ ", publisher = "
             +:+ PyStr.fmt (arg_publication a)) ;;
  source <-
    match loc_source loc with
    | Some s => ret s
    | None =>
        s <- target_child_text target "source" ;;
        log DEBUG ("No source provided, using " +:+ s +:+ ", taken from manifest") ;;
        ret s
    end ;;
  output <-
    match loc_output loc with
    | Some o => ret o
    | None =>
        o <- target_child_text target "output-dir" ;;
        log DEBUG ("No output provided, using " +:+ o +:+ ", taken from manifest") ;;
        ret o
    end ;;
  publication <-
    match arg_publication a with
    | Some p => ret (Some p)
    | None =>
        try_except_all
          (p <- target_child_text target "publication" ;;
           log DEBUG ("No publisher file provided, using " +:+ p +:+ ", taken from manifest") ;;
           ret (Some p))
          (log WARNING ("No publisher file was found in " +:+ PyStr.fmt (loc_manifest loc)
                        +:+ ", will try to build anyway.") ;;
           ret None)
    end ;;
  (* Set target_format to the correct thing *)
  target_format <-
    try_except_all
      (f <- target_child_text target "format" ;;
       log DEBUG ("Setting the target format to " +:+ f
                  +:+ ", taken from manifest for target " +:+ PyStr.fmt target) ;;
       ret (Some f))
      (log WARNING ("No format listed in the manifest for the target " +:+ PyStr.fmt target
                    +:+ ".  Will try to build using " +:+ PyStr.fmt target
                    +:+ " as the format.") ;;
       ret target) ;;
  ret {| res_target := target; res_source := source; res_output := output;
         res_publication := publication; res_target_format := target_format |}.

(** Lines 190-193: the syntax check, which can quit, and the schema
    validation. *)
Definition build_validate (source : string) : prog unit :=
  emit (EvXmlSyntaxCheck source) ;;
  query (utils_xml_syntax_check E source) ;;
  emit (EvSchemaValidate source) ;;
  query (utils_schema_validate E source).

(** The bundled publication file of line 206. *)
Definition template_publication : string :=
  PosixPath.join (PosixPath.dirname (static_file E)) ["templates"; "publication.ptx"].

(** Lines 200-207: the publication file that will be used. *)
Definition build_select_publication (stringparams : gmap string string)
    (publication : option string) : prog string :=
  let publication :=
    match stringparams !! "publisher" with
    | Some v => Some v
    | None => publication
    end in
  (* os.path.abspath(None) is a TypeError *)
  publication <- unwrap TypeError publication ;;
  let publication := abspath publication in
  is_file <- test (fun fs => isfile fs publication) ;;
  if negb is_file then
    (* the message is built from stringparams['publisher'] *)
    v <- unwrap (KeyError "publisher") (stringparams !! "publisher") ;;
    log ERROR ("You or the manifest supplied " +:+ v
               +:+ " as a publisher file, but it doesn't exist at that location.  Will try to build anyway.") ;;
    ret template_publication
  else ret publication.

(** Lines 190-219: validate the source, read the string parameters, choose
    the publication file, make sure the asset directories exist, and make
    source and output absolute. *)
Definition build_prepare (a : build_args) (r : resolved) : prog prepared :=
  let source := res_source r in
  build_validate source ;;
  let stringparams := stringparams_of (arg_param a) in
  publication <- build_select_publication stringparams (res_publication r) ;;
  (* Ensure directories for assets and generated assets *)
  pub_tree <- query (ET_parse E publication) ;;
  pub_tree <- query (ET_xinclude E pub_tree) ;;
  let element_list := Xml.xpath_abs ["publication"; "source"; "directories"] pub_tree in
  first <- unwrap IndexError (head element_list) ;;
  let attributes_dict := Xml.attrib first in
  external <- unwrap (KeyError "external") (attributes_dict !! "external") ;;
  ensure_directory (abspath (PosixPath.join (PosixPath.dirname source) [external])) ;;
  generated <- unwrap (KeyError "generated") (attributes_dict !! "generated") ;;
  ensure_directory (abspath (PosixPath.join (PosixPath.dirname source) [generated])) ;;
  (* set up source (input) and output as absolute paths *)
  ret {| pre_source := abspath source; pre_output := abspath (res_output r);
         pre_publication := publication; pre_stringparams := stringparams |}.

(** Lines 220-222: remove the output directory when there is one. *)
Definition build_clean (output : string) : prog unit :=
  is_dir <- test (fun fs => isdir fs output) ;;
  if is_dir then shutil_rmtree output else ret tt.

(** Lines 223-260: the engine calls. *)
Definition build_dispatch (a : build_args) (r : resolved) (p : prepared) : prog unit :=
  let source := pre_source p in
  let output := pre_output p in
  let publication := pre_publication p in
  let stringparams := pre_stringparams p in
  let target_format := res_target_format r in
  (* put webwork-representations.ptx in same dir as source main file *)
  let webwork_output := PosixPath.dirname source in
  (if arg_webwork a then
     server_params <-
       try_except
         (unwrap (KeyError "server") (stringparams !! "server"))
         (fun e =>
            let root_cause := exn_str e in
            log WARNING ("No server name, " +:+ root_cause +:+ ".  Using default "
                         +:+ webwork_default_server) ;;
            ret webwork_default_server) ;;
     engine (Webwork source publication webwork_output stringparams server_params)
   else ret tt) ;;
  (if arg_diagrams a then
     let generated_assets := "generated-assets" in
     engine (Diagrams source publication generated_assets stringparams
                      (arg_diagrams_format a))
   else
     source_xml <- query (ET_parse E source) ;;
     source_xml <- query (ET_xinclude E source_xml) ;;
     (if Xml.has_generated_images source_xml && str_is target_format "html" then
        log WARNING "There are generated images (<latex-image/>, <asymptote/>, or <sageplot/>) or in source, but these will not be (re)built. Run pretext build with the `-d` flag if updates are needed."
      else ret tt) ;;
     (if Xml.needs_preview source_xml && str_is target_format "latex" then
        log WARNING "The source has interactive elements or videos that need a preview to be generated, but these will not be (re)built. Run `pretext build` with the `-d` flag if updates are needed."
      else ret tt)) ;;
  (if str_is target_format "html" && negb (arg_only_assets a) then
     engine (Html source publication output stringparams)
   else ret tt) ;;
  (if str_is target_format "latex" && negb (arg_only_assets a) then
     engine (Latex source publication output stringparams)
   else ret tt) ;;
  (if str_is target_format "pdf" && negb (arg_only_assets a) then
     engine (Pdf source publication output stringparams)
   else ret tt).

(** Lines 134-188: the configuration [build] works with. *)
Definition build_resolve (a : build_args) : prog resolved :=
  loc <- build_locate a ;;
  build_pull a loc.

Definition build (a : build_args) : prog unit :=
  r <- build_resolve a ;;
  p <- build_prepare a r ;;
  build_clean (pre_output p) ;;
  build_dispatch a r p.

(** *** pretext view (lines 296-311) *)
Definition view (a : view_args) : prog unit :=
  let target_name := view_target a in
  match view_directory a with
  | Some directory =>
      emit (EvRunServer directory (view_access a) (view_port a)) ;;
      effect (utils_run_server E directory (view_access a) (view_port a))
  | None =>
      project <- query (Project E) ;;
      target <- query (project_target E project target_name) ;;
      match target with
      | Some target =>
          emit (EvTargetView (view_access a) (view_port a) (view_watch a)) ;;
          effect (target_view E target (view_access a) (view_port a) (view_watch a))
      | None =>
          log ERROR ("Target `" +:+ PyStr.fmt target_name +:+ "` could not be found.")
      end
  end.

End Commands.

(** ** Properties of runs *)

(** [respects R m]: on every file system, the run of [m] relates the file
    system it starts on, the one it leaves, and its trace by [R]. *)
Definition respects (R : FS -> FS -> list event -> Prop) {A} (m : prog A) : Prop :=
  forall fs, R fs (final_fs (m fs)) (trace (m fs)).

(** No engine call is made. *)
Definition engine_free (tr : list event) : Prop :=
  Forall (fun e => is_engine e = false) tr.

(** No directory tree is removed. *)
Definition rmtree_free (tr : list event) : Prop :=
  Forall (fun e => is_rmtree e = false) tr.

(** Neither an engine call nor a removal. *)
Definition quiet (tr : list event) : Prop :=
  Forall (fun e => is_engine e = false /\ is_rmtree e = false) tr.

(** Whatever happens to the file system, the trace is quiet. *)
Definition quietly (fs fs' : FS) (tr : list event) : Prop := quiet tr.

(** Whatever happens to the file system, no directory tree is removed. *)
Definition without_rmtree (fs fs' : FS) (tr : list event) : Prop := rmtree_free tr.

(** Only log messages are produced and the file system is left as it was. *)
Definition only_logs (fs fs' : FS) (tr : list event) : Prop :=
  fs' = fs /\ Forall (fun e => is_log e = true) tr.

(** Nothing is written, no engine call is made and nothing is removed. *)
Definition reads_only (fs fs' : FS) (tr : list event) : Prop :=
  fs' = fs /\ quiet tr.

(** The first engine call of a trace, with the file system it saw. *)
Fixpoint first_engine (tr : list event) : option (engine_call * FS) :=
  match tr with
  | [] => None
  | EvEngine c seen :: _ => Some (c, seen)
  | _ :: tr' => first_engine tr'
  end.


(** Every engine call is given this source and this publication file. *)
Definition engines_given (source publication : string) (fs fs' : FS)
    (tr : list event) : Prop :=
  Forall (fun e => match e with
                   | EvEngine c _ => engine_source c = source
                                     /\ engine_publication c = publication
                   | _ => True
                   end) tr.



(** [utils.ensure_directory] removes no directory. *)
Definition ensure_directory_keeps_dirs (E : externals) : Prop :=
  forall d fs q, isdir fs q = true -> isdir (utils_ensure_directory E d fs).2 q = true.

(** The text of a child element of the manifest's target, stripped; [None]
    when the target, the child or its text is missing. *)
Definition manifest_child (E : externals) (fs : FS) (target : option string)
    (child : string) : option string :=
  match utils_target_xml E target fs with
  | Ret (Some t) =>
      match Xml.find child t with
      | Some c => PyStr.strip <$> Xml.text c
      | None => None
      end
  | _ => None
  end.

(** ** A sample project

    A project in [/proj] with two targets, used to run the commands on
    concrete inputs. *)

Definition text_child (name value : string) : Xml.element :=
  Xml.Element name ∅ (Some value) [].

Definition sample_target (name format source publication output : string) : Xml.element :=
  Xml.Element "target" {[ "name" := name ]} None
    [ text_child "format" format;
      text_child "source" source;
      text_child "publication" publication;
      text_child "output-dir" output ].

Definition sample_manifest : Xml.element :=
  Xml.Element "project" ∅ None
    [ Xml.Element "targets" ∅ None
        [ sample_target "html" "html" " source/main.ptx " "publication/publication.ptx"
                        "output/html";
          sample_target "latex" "latex" "source/main.ptx" "publication/publication.ptx"
                        "output/latex" ] ].

Definition sample_publication : Xml.element :=
  Xml.Element "publication" ∅ None
    [ Xml.Element "source" ∅ None
        [ Xml.Element "directories"
            {[ "external" := "../assets"; "generated" := "../generated-assets" ]}
            None [] ] ].

Definition sample_source : Xml.element :=
  Xml.Element "pretext" ∅ None
    [ Xml.Element "article" ∅ None [ Xml.Element "latex-image" ∅ None [] ] ].

Definition sample_cwd : string := "/proj".

(** The project on disk, with an earlier HTML build in [output/html]. *)
Definition sample_fs : FS :=
  list_to_map
    [ ("/proj", Dir);
      ("/proj/project.ptx", File "<project/>");
      ("/proj/source", Dir);
      ("/proj/source/main.ptx", File "<pretext/>");
      ("/proj/publication", Dir);
      ("/proj/publication/publication.ptx", File "<publication/>");
      ("/proj/output", Dir);
      ("/proj/output/html", Dir);
      ("/proj/output/html/index.html", File "old");
      ("/pkg/static/templates/publication.ptx", File "<publication/>");
      ("/pkg/static/templates/project.ptx", File "<project/>") ].

(** The same project without its publication file. *)
Definition sample_fs_no_publication : FS :=
  delete "/proj/publication/publication.ptx" sample_fs.

(** A directory with no project in it. *)
Definition bare_fs : FS :=
  list_to_map
    [ ("/proj", Dir);
      ("/proj/source", Dir);
      ("/proj/source/main.ptx", File "<pretext/>");
      ("/pkg/static/templates/publication.ptx", File "<publication/>");
      ("/pkg/static/templates/project.ptx", File "<project/>") ].

(** Writes [x] at [p] unless something is there already. *)
Definition create (p : string) (x : node) (fs : FS) : FS :=
  match fs !! resolve p with
  | Some _ => fs
  | None => <[resolve p := x]> fs
  end.

(** A locator that walks up from [dir] looking for [project.ptx]. *)
Fixpoint walk_up (fuel : nat) (fs : FS) (dir : string) : option string :=
  if isfile fs (PosixPath.join2 dir "project.ptx") then Some dir
  else match fuel with
       | 0 => None
       | S fuel' =>
           let parent := PosixPath.dirname dir in
           if String.eqb parent dir then None else walk_up fuel' fs parent
       end.

Definition sample_targets (manifest : Xml.element) : list Xml.element :=
  Xml.findall_path ["targets"; "target"] [manifest].

Definition sample_target_xml (manifest : Xml.element) (alias : option string)
  : option Xml.element :=
  match alias with
  | None => head (sample_targets manifest)
  | Some name =>
      head (List.filter (fun t => bool_decide (Xml.get "name" t = Some name))
                        (sample_targets manifest))
  end.

(** Sample imports: the manifest readers answer from [manifest], the parser
    reads [main.ptx] as the source and any other file as a publication file, the HTML builder writes
    [index.html] into the output directory, and the other calls do nothing. *)
Definition sample_externals (manifest : Xml.element) : externals := {|
  static_file := "/pkg/static/__init__.py";
  utils_project_path := fun dir fs =>
    Ret (walk_up 8 fs (default sample_cwd dir));
  utils_project_xml := fun _ => Ret manifest;
  utils_target_xml := fun alias _ => Ret (sample_target_xml manifest alias);
  utils_xml_syntax_check := fun source fs =>
    if isfile fs (PosixPath.abspath sample_cwd source) then Ret tt
    else Exit "XML syntax error";
  utils_schema_validate := fun _ _ => Ret tt;
  utils_ensure_directory := fun d fs => (Ret tt, create d Dir fs);
  utils_run_server := fun _ _ _ fs => (Ret tt, fs);
  builder := fun c fs =>
    match c with
    | Html _ _ output _ =>
        (Ret tt, create (PosixPath.join2 output "index.html") (File "new")
                   (create output Dir fs))
    | _ => (Ret tt, fs)
    end;
  project := Xml.element;
  project_target_t := Xml.element;
  Project := fun _ => Ret manifest;
  project_target := fun m name _ => Ret (sample_target_xml m name);
  target_view := fun _ _ _ _ fs => (Ret tt, fs);
  ET_parse := fun path fs =>
    if negb (isfile fs path) then Raise (FileNotFoundError path)
    else if String.eqb (PosixPath.basename path) "main.ptx" then Ret sample_source
    else Ret sample_publication;
  ET_xinclude := fun e _ => Ret e;
  zip_archive := list string;
  requests_get := fun _ => Raise (OtherError "no network");
  ZipFile_bytes := fun _ => Raise (OtherError "not a zip file");
  ZipFile_path := fun _ _ => Ret ["book/project.ptx"; "book/source/main.ptx"];
  namelist := fun l => l;
  archive_extract := fun _ member path fs =>
    (Ret tt, <[resolve (PosixPath.join2 path member) := File "template"]> fs);
  TemporaryDirectory := fun fs => (Ret "/tmp/tmpdir", <["/tmp/tmpdir" := Dir]> fs);
  shutil_copytree := fun _ dst fs =>
    let dst := resolve (PosixPath.abspath sample_cwd dst) in
    (Ret tt, <[PosixPath.join2 dst "project.ptx" := File "template"]> (<[dst := Dir]> fs))
|}.

Definition sample_E : externals := sample_externals sample_manifest.

(** [pretext build] with no argument at all. *)
Definition build_defaults : build_args := {|
  arg_target := None; arg_source := None; arg_output := None; arg_param := [];
  arg_publication := None; arg_webwork := false; arg_diagrams := false;
  arg_diagrams_format := "svg"; arg_only_assets := false; arg_pdf := false
|}.


(** [pretext build html -o //proj] *)
Definition build_into_double_slash : build_args := {|
  arg_target := Some "html"; arg_source := None; arg_output := Some "//proj";
  arg_param := [];
  arg_publication := None; arg_webwork := false; arg_diagrams := false;
  arg_diagrams_format := "svg"; arg_only_assets := false; arg_pdf := false
|}.



(** [pretext build epub] *)
Definition build_epub : build_args := {|
  arg_target := Some "epub"; arg_source := None; arg_output := None; arg_param := [];
  arg_publication := None; arg_webwork := false; arg_diagrams := false;
  arg_diagrams_format := "svg"; arg_only_assets := false; arg_pdf := false
|}.

(** [pretext view epub] *)
Definition view_epub : view_args := {|
  view_target := Some "epub"; view_access := "private"; view_port := 8000%Z;
  view_directory := None; view_watch := false
|}.

(** [pretext new] *)
Definition new_defaults : new_args := {|
  new_template := book; new_directory := "new-pretext-project"; new_url_template := None
|}.

(** What [pretext build] resolves in the sample project. *)
Definition sample_resolved : resolved := {|
  res_target := Some "html"; res_source := "source/main.ptx";
  res_output := "output/html";
  res_publication := Some "publication/publication.ptx";
  res_target_format := Some "html"
|}.

(** [pretext build epub] in the sample project, once the manifest is found. *)
Definition sample_located_epub : located := {|
  loc_manifest_dir := Some "/proj"; loc_manifest := Some "project.ptx";
  loc_target := Some "epub"; loc_source := None; loc_output := None
|}.



(** ** The rest of [cli.py]: [raise_cli_error], [main] and [publish] *)

Module PyWords.

(** [s.split()], with no argument: the maximal runs of characters that are
    not white space, in order; never an empty string among them. *)
Fixpoint split_ws (s : string) : list string :=
  match s with
  | EmptyString => []
  | String c s' =>
      if PyStr.is_space c then split_ws s'
      else
        match s' with
        | EmptyString => [String c EmptyString]
        | String d _ =>
            if PyStr.is_space d then String c EmptyString :: split_ws s'
            else
              match split_ws s' with
              | w :: ws => String c w :: ws
              | [] => [String c EmptyString]
              end
        end
  end.

(** [" ".join(s.split())] *)
Definition normalize (s : string) : string := PyStr.join " " (split_ws s).

(** Some character of [s] is white space. *)
Fixpoint has_space (s : string) : bool :=
  match s with
  | EmptyString => false
  | String c s' => PyStr.is_space c || has_space s'
  end.

(** [c in s] *)
Fixpoint has_char (c : ascii) (s : string) : bool :=
  match s with
  | EmptyString => false
  | String d s' => Ascii.eqb d c || has_char c s'
  end.

(** A word: not empty, and free of white space. *)
Definition is_word (w : string) : Prop := w <> EmptyString /\ has_space w = false.

End PyWords.

(** [raise_cli_error(message)] (lines 23-24).  The [click.UsageError] is
    carried by [OtherError], with its message. *)
Definition raise_cli_error {A} (message : string) : prog A :=
  raise (OtherError (PyStr.join " " (PyWords.split_ws message))).

(** [os.chdir(path)] in working directory [cwd]: the new working directory
    ([os.getcwd()] afterwards), which is the directory as the system names
    it, when [path] is a directory. *)
Definition os_chdir (cwd path : string) : prog string :=
  fun fs =>
    let target := resolve (PosixPath.abspath cwd path) in
    match fs !! target with
    | Some Dir => (Ret target, fs, [])
    | Some (File _) => (Raise (OtherError "NotADirectoryError"), fs, [])
    | None => (Raise (FileNotFoundError path), fs, [])
    end.

Section MoreCommands.

(** The working directory, the imported modules, and two more calls:
    [core.set_verbosity] of the engine and [target.publish()]. *)
Context (cwd : string) (E : externals).
Context (core_set_verbosity : Z -> FS -> outcome unit * FS).
Context (target_publish : project_target_t E -> FS -> outcome unit * FS).

(** *** The group callback (lines 32-47)

    [main level] is run by click before every command, [level] being
    [log.level]; it yields the working directory the command then runs in. *)
Definition main (level : Z) : prog string :=
  (* set verbosity: *)
  let verbosity :=
    if (level =? 10)%Z then 2%Z
    else if (level =? 50)%Z then 0%Z
    else 1%Z in
  effect (core_set_verbosity verbosity) ;;
  found <- query (utils_project_path E None) ;;
  match found with
  | Some _ =>
      where_ <- query (utils_project_path E None) ;;
      log INFO ("PreTeXt project found in `" +:+ PyStr.fmt where_ +:+ "`.") ;;
      dir <- query (utils_project_path E None) ;;
      (* os.chdir(None) is a TypeError *)
      dir <- unwrap TypeError dir ;;
      os_chdir cwd dir
  | None => ret cwd
  end.

(** [pretext build ...] as click runs it: the group callback, then the
    command in the working directory the callback has left. *)
Definition main_then_build (level : Z) (a : build_args) : prog unit :=
  cwd' <- main level ;;
  build cwd' E a.

(** *** pretext publish (lines 316-328) *)
Definition publish (target : option string) : prog unit :=
  let target_name := target in
  project <- query (Project E) ;;
  target <- query (project_target E project target_name) ;;
  (* None has no attribute publish *)
  target <- unwrap AttributeError target ;;
  effect (target_publish target).

End MoreCommands.

(** The body of the [with] statement of [new] (lines 82-85), for the
    directory [project_dir_path] of the archive and the temporary directory
    [tmpdirname]. *)
Definition new_body (E : externals) (a : new_args) (archive : zip_archive E)
    (project_dir_path tmpdirname : string) : prog unit :=
  for_each
    (List.filter (PyStr.startswith project_dir_path) (namelist E archive))
    (fun filepath =>
       emit (EvExtract filepath tmpdirname) ;;
       effect (archive_extract E archive filepath tmpdirname)) ;;
  let tmpsubdirname := PosixPath.join tmpdirname [project_dir_path] in
  emit (EvCopytree tmpsubdirname (new_directory a)) ;;
  effect (shutil_copytree E tmpsubdirname (new_directory a)).

(** Lines 72-77 of [new] open [archive]: the download of [--url-template]
    read as a zip file, or else the bundled zip file of the template. *)
Definition new_opens (E : externals) (a : new_args) (fs : FS) (archive : zip_archive E)
  : Prop :=
  match new_url_template a with
  | Some url_template =>
      exists content,
        requests_get E url_template = Ret content
        /\ ZipFile_bytes E content = Ret archive
  | None =>
      ZipFile_path E
        (PosixPath.join (PosixPath.dirname (static_file E))
           ["templates"; template_name (new_template a) +:+ ".zip"]) fs
      = Ret archive
  end.

(** ** More properties of runs *)

(** A call to one of the three builders of a whole document. *)
Definition is_main_builder (e : event) : bool :=
  match e with
  | EvEngine (Html _ _ _ _) _ | EvEngine (Latex _ _ _ _) _ | EvEngine (Pdf _ _ _ _) _ => true
  | _ => false
  end.

Definition engine_stringparams (c : engine_call) : gmap string string :=
  match c with
  | Webwork _ _ _ sp _ | Diagrams _ _ _ sp _ | Html _ _ _ sp | Latex _ _ _ sp
  | Pdf _ _ _ sp => sp
  end.

(** What the flags and the resolved configuration allow an engine call to
    be: each call is behind its flag or its format, and its remaining
    arguments are fixed by the command line and the configuration. *)
Definition engine_call_expected (cwd : string) (a : build_args) (r : resolved)
    (c : engine_call) : Prop :=
  match c with
  | Webwork _ _ webwork_output sp server_params =>
      arg_webwork a = true
      /\ webwork_output = PosixPath.dirname (PosixPath.abspath cwd (res_source r))
      /\ server_params = default webwork_default_server (sp !! "server")
  | Diagrams _ _ generated_assets _ diagrams_format =>
      arg_diagrams a = true
      /\ generated_assets = "generated-assets"
      /\ diagrams_format = arg_diagrams_format a
  | Html _ _ output _ =>
      res_target_format r = Some "html" /\ arg_only_assets a = false
      /\ output = PosixPath.abspath cwd (res_output r)
  | Latex _ _ output _ =>
      res_target_format r = Some "latex" /\ arg_only_assets a = false
      /\ output = PosixPath.abspath cwd (res_output r)
  | Pdf _ _ output _ =>
      res_target_format r = Some "pdf" /\ arg_only_assets a = false
      /\ output = PosixPath.abspath cwd (res_output r)
  end.

(** Every engine call of a trace is as [engine_call_expected] has it, with
    the string parameters [sp]. *)
Definition engines_expected (cwd : string) (a : build_args) (r : resolved)
    (sp : gmap string string) (fs fs' : FS) (tr : list event) : Prop :=
  Forall (fun e => match e with
                   | EvEngine c _ => engine_call_expected cwd a r c
                                     /\ engine_stringparams c = sp
                   | _ => True
                   end) tr.

(** At most [n] calls to the builders of a whole document. *)
Definition main_builders_at_most (n : nat) (fs fs' : FS) (tr : list event) : Prop :=
  length (List.filter is_main_builder tr) <= n.

(** What a run of [new] may extract, copy and remove, given the archive,
    the directory [prefix] of its first [project.ptx] and the temporary
    directory [tmp]. *)
Definition new_event_expected (E : externals) (a : new_args) (archive : zip_archive E)
    (prefix tmp : string) (e : event) : Prop :=
  match e with
  | EvExtract member path =>
      path = tmp /\ PyStr.startswith prefix member = true
      /\ In member (namelist E archive)
  | EvCopytree src dst => src = PosixPath.join tmp [prefix] /\ dst = new_directory a
  | EvRmtree d => d = tmp
  | EvLog _ _ | EvHttpGet _ => True
  | _ => False
  end.

(** The locator finds a project at least where [project.ptx] is a file of
    the directory it is asked about. *)
Definition locator_sound (E : externals) : Prop :=
  forall d fs,
    isfile fs (PosixPath.join d ["project.ptx"]) = true ->
    exists p, utils_project_path E (Some d) fs = Ret (Some p).

(** [a] with the [--pdf] flag set to [b]. *)
Definition with_pdf (b : bool) (a : build_args) : build_args := {|
  arg_target := arg_target a; arg_source := arg_source a; arg_output := arg_output a;
  arg_param := arg_param a; arg_publication := arg_publication a;
  arg_webwork := arg_webwork a; arg_diagrams := arg_diagrams a;
  arg_diagrams_format := arg_diagrams_format a; arg_only_assets := arg_only_assets a;
  arg_pdf := b
|}.

(** ** More of the sample project *)

(** A manifest whose only target has a format that [build] does not know
    and names no publication file. *)
Definition epub_manifest : Xml.element :=
  Xml.Element "project" ∅ None
    [ Xml.Element "targets" ∅ None
        [ Xml.Element "target" {[ "name" := "ebook" ]} None
            [ text_child "format" "epub";
              text_child "source" "source/main.ptx";
              text_child "publication" "publication/publication.ptx";
              text_child "output-dir" "output/html" ];
          Xml.Element "target" {[ "name" := "web" ]} None
            [ text_child "source" "source/main.ptx";
              text_child "output-dir" "output/web" ];
          Xml.Element "target" {[ "name" := "bare" ]} None [] ] ].

Definition epub_E : externals := sample_externals epub_manifest.

(** [pretext build web] *)
Definition build_web : build_args := {|
  arg_target := Some "web"; arg_source := None; arg_output := None; arg_param := [];
  arg_publication := None; arg_webwork := false; arg_diagrams := false;
  arg_diagrams_format := "svg"; arg_only_assets := false; arg_pdf := false
|}.

(** What [pretext build web] resolves with that manifest. *)
Definition web_resolved : resolved := {|
  res_target := Some "web"; res_source := "source/main.ptx";
  res_output := "output/web"; res_publication := None;
  res_target_format := Some "web"
|}.




(** [pretext build bare] with that manifest, once the manifest is found. *)
Definition bare_located : located := {|
  loc_manifest_dir := Some "/proj"; loc_manifest := Some "project.ptx";
  loc_target := Some "bare"; loc_source := None; loc_output := None
|}.

(** [pretext build bare] *)
Definition build_bare : build_args := {|
  arg_target := Some "bare"; arg_source := None; arg_output := None; arg_param := [];
  arg_publication := None; arg_webwork := false; arg_diagrams := false;
  arg_diagrams_format := "svg"; arg_only_assets := false; arg_pdf := false
|}.

(** [pretext build -w -d --param server:https://example.org:8080] *)
Definition build_assets : build_args := {|
  arg_target := None; arg_source := None; arg_output := None;
  arg_param := ["server:https://example.org:8080"];
  arg_publication := None; arg_webwork := true; arg_diagrams := true;
  arg_diagrams_format := "svg"; arg_only_assets := false; arg_pdf := false
|}.

(** The sample project with a source that the syntax check refuses. *)
Definition sample_fs_no_source : FS := delete "/proj/source/main.ptx" sample_fs.

(** The sample imports with another zip archive for [new]. *)
Definition with_archive (E : externals) (names : list string) : externals := {|
  static_file := static_file E;
  utils_project_path := utils_project_path E;
  utils_project_xml := utils_project_xml E;
  utils_target_xml := utils_target_xml E;
  utils_xml_syntax_check := utils_xml_syntax_check E;
  utils_schema_validate := utils_schema_validate E;
  utils_ensure_directory := utils_ensure_directory E;
  utils_run_server := utils_run_server E;
  builder := builder E;
  project := project E;
  project_target_t := project_target_t E;
  Project := Project E;
  project_target := project_target E;
  target_view := target_view E;
  ET_parse := ET_parse E;
  ET_xinclude := ET_xinclude E;
  zip_archive := list string;
  requests_get := requests_get E;
  ZipFile_bytes := fun _ => Raise (OtherError "not a zip file");
  ZipFile_path := fun _ _ => Ret names;
  namelist := fun l => l;
  archive_extract := fun _ member path fs =>
    (Ret tt, <[resolve (PosixPath.join2 path member) := File "template"]> fs);
  TemporaryDirectory := TemporaryDirectory E;
  shutil_copytree := shutil_copytree E
|}.

(** * Theorems *)

(** ** Sanity checks of the string and path functions *)

Example strip_example :
  PyStr.strip "  source/main.ptx
 " = "source/main.ptx".
Proof. reflexivity. Qed.

Example split_example :
  PyStr.split ":" "server:https://x.org" = ["server"; "https"; "//x.org"].
Proof. reflexivity. Qed.

Example param_entry_example :
  param_entry " server : https://x.org " = ("server", "https://x.org")
  /\ param_entry "publisher" = ("publisher", EmptyString).
Proof. split; reflexivity. Qed.

Example abspath_examples :
  PosixPath.abspath "/proj" "." = "/proj"
  /\ PosixPath.abspath "/proj" "output/../out/./html/" = "/proj/out/html"
  /\ PosixPath.abspath "/proj" "/elsewhere/x" = "/elsewhere/x"
  /\ PosixPath.abspath "/proj" EmptyString = "/proj".
Proof. repeat split; reflexivity. Qed.

Example dirname_examples :
  PosixPath.dirname "source/main.ptx" = "source"
  /\ PosixPath.dirname "main.ptx" = EmptyString
  /\ PosixPath.dirname "/main.ptx" = "/"
  /\ PosixPath.basename "a/b/project.ptx" = "project.ptx".
Proof. repeat split; reflexivity. Qed.

Example under_examples :
  under "/proj" "/proj/project.ptx" = true
  /\ under "/proj" "/proj" = true
  /\ under "/proj/output" "/proj/output2/x" = false
  /\ under "/" "/proj" = true.
Proof. repeat split; reflexivity. Qed.

Example resolve_examples :
  resolve "//proj" = "/proj"
  /\ resolve "/proj/output" = "/proj/output"
  /\ PosixPath.abspath "/proj" "//proj" = "//proj"
  /\ PosixPath.abspath "/proj" "///proj" = "/proj"
  /\ under "//proj" "/proj/project.ptx" = true
  /\ under "//proj/output" "/proj/output2/x" = false.
Proof. repeat split; reflexivity. Qed.

(** ** The file system *)

Lemma rmtree_lookup (d p : string) (fs : FS) :
  rmtree d fs !! p = if under d p then None else fs !! p.
Proof.
  unfold rmtree. destruct (under d p) eqn:Hu.
  - apply map_lookup_filter_None. right. intros x _. simpl. congruence.
  - destruct (fs !! p) as [x|] eqn:Hp.
    + apply map_lookup_filter_Some. split; [exact Hp | exact Hu].
    + apply map_lookup_filter_None. left. exact Hp.
Qed.

Lemma rmtree_under (d p : string) (fs : FS) :
  under d p = true -> rmtree d fs !! p = None.
Proof. intros H. rewrite rmtree_lookup, H. reflexivity. Qed.


(** ** Runs of composed programs *)

Lemma bind_ret_run {A B} (m : prog A) (k : A -> prog B) fs a fs1 t1 :
  m fs = (Ret a, fs1, t1) ->
  bind m k fs = ((k a fs1).1.1, (k a fs1).1.2, t1 ++ (k a fs1).2).
Proof. intros H. unfold bind. rewrite H. destruct (k a fs1) as [[r fs2] t2]. reflexivity. Qed.

Lemma bind_exit_run {A B} (m : prog A) (k : A -> prog B) fs msg fs1 t1 :
  m fs = (Exit msg, fs1, t1) -> bind m k fs = (Exit msg, fs1, t1).
Proof. intros H. unfold bind. rewrite H. reflexivity. Qed.

Lemma bind_raise_run {A B} (m : prog A) (k : A -> prog B) fs e fs1 t1 :
  m fs = (Raise e, fs1, t1) -> bind m k fs = (Raise e, fs1, t1).
Proof. intros H. unfold bind. rewrite H. reflexivity. Qed.

(** A run of [bind m k] that returns went through a returning run of [m]. *)
Lemma bind_ret_inv {A B} (m : prog A) (k : A -> prog B) fs b fs' tr :
  bind m k fs = (Ret b, fs', tr) ->
  exists a fs1 t1 t2,
    m fs = (Ret a, fs1, t1) /\ k a fs1 = (Ret b, fs', t2) /\ tr = t1 ++ t2.
Proof.
  unfold bind. destruct (m fs) as [[[a|msg|e] fs1] t1]; try discriminate.
  destruct (k a fs1) as [[r fs2] t2] eqn:Hk. intros H. inversion H; subst.
  exists a, fs1, t1, t2. auto.
Qed.

(** The trace of a sequence starts with the trace of its first part. *)
Lemma trace_bind_prefix {A B} (m : prog A) (k : A -> prog B) fs :
  exists rest, trace (bind m k fs) = trace (m fs) ++ rest.
Proof.
  unfold bind. destruct (m fs) as [[[a|msg|e] fs1] t1].
  - destruct (k a fs1) as [[r fs2] t2]. exists t2. reflexivity.
  - exists []. symmetry. apply app_nil_r.
  - exists []. symmetry. apply app_nil_r.
Qed.

Section Respects.

Context (R : FS -> FS -> list event -> Prop).
Context (R_refl : forall fs, R fs fs []).
Context (R_app : forall fs1 fs2 fs3 t1 t2,
            R fs1 fs2 t1 -> R fs2 fs3 t2 -> R fs1 fs3 (t1 ++ t2)).

Lemma respects_ret {A} (a : A) : respects R (ret a).
Proof. intros fs. apply R_refl. Qed.

Lemma respects_sys_exit {A} msg : respects R (@sys_exit A msg).
Proof. intros fs. apply R_refl. Qed.

Lemma respects_raise {A} e : respects R (@raise A e).
Proof. intros fs. apply R_refl. Qed.

Lemma respects_query {A} (f : FS -> outcome A) : respects R (query f).
Proof. intros fs. apply R_refl. Qed.

Lemma respects_test (f : FS -> bool) : respects R (test f).
Proof. intros fs. apply R_refl. Qed.

Lemma respects_emit (e : event) : (forall fs, R fs fs [e]) -> respects R (emit e).
Proof. intros H fs. apply H. Qed.

Lemma respects_log lvl msg : (forall fs, R fs fs [EvLog lvl msg]) -> respects R (log lvl msg).
Proof. intros H fs. apply H. Qed.

Lemma respects_effect {A} (f : FS -> outcome A * FS) :
  (forall fs, R fs (f fs).2 []) -> respects R (effect f).
Proof. intros H fs. specialize (H fs). unfold effect. destruct (f fs). exact H. Qed.

Lemma respects_engine (E : externals) (c : engine_call) :
  (forall fs, R fs (builder E c fs).2 [EvEngine c fs]) -> respects R (engine E c).
Proof. intros H fs. specialize (H fs). unfold engine. destruct (builder E c fs). exact H. Qed.

Lemma respects_shutil_rmtree (d : string) :
  (forall fs, R fs (rmtree d fs) [EvRmtree d]) -> respects R (shutil_rmtree d).
Proof. intros H fs. apply H. Qed.

Lemma respects_unwrap {A} e (x : option A) : respects R (unwrap e x).
Proof. destruct x; [apply respects_ret | apply respects_raise]. Qed.

Lemma respects_bind {A B} (m : prog A) (k : A -> prog B) :
  respects R m -> (forall a, respects R (k a)) -> respects R (bind m k).
Proof.
  intros Hm Hk fs. specialize (Hm fs). unfold bind.
  destruct (m fs) as [[[a|msg|e] fs1] t1]; try exact Hm.
  specialize (Hk a fs1). destruct (k a fs1) as [[r fs2] t2].
  exact (R_app _ _ _ _ _ Hm Hk).
Qed.

Lemma respects_try_except {A} (m : prog A) (h : exn -> prog A) :
  respects R m -> (forall e, respects R (h e)) -> respects R (try_except m h).
Proof.
  intros Hm Hh fs. specialize (Hm fs). unfold try_except.
  destruct (m fs) as [[[a|msg|e] fs1] t1]; try exact Hm.
  specialize (Hh e fs1). destruct (h e fs1) as [[r fs2] t2].
  exact (R_app _ _ _ _ _ Hm Hh).
Qed.

Lemma respects_try_except_all {A} (m h : prog A) :
  respects R m -> respects R h -> respects R (try_except_all m h).
Proof.
  intros Hm Hh fs. specialize (Hm fs). unfold try_except_all.
  destruct (m fs) as [[[a|msg|e] fs1] t1]; try exact Hm;
    specialize (Hh fs1); destruct (h fs1) as [[r fs2] t2];
    exact (R_app _ _ _ _ _ Hm Hh).
Qed.

Lemma respects_finally {A} (m : prog A) (c : prog unit) :
  respects R m -> respects R c -> respects R (finally m c).
Proof.
  intros Hm Hc fs. specialize (Hm fs). unfold finally.
  destruct (m fs) as [[r fs1] t1]. specialize (Hc fs1).
  destruct (c fs1) as [[[u|msg|e] fs2] t2]; exact (R_app _ _ _ _ _ Hm Hc).
Qed.

Lemma respects_for_each {A} (l : list A) (body : A -> prog unit) :
  (forall x, respects R (body x)) -> respects R (for_each l body).
Proof.
  intros Hb. induction l as [|x l IH]; simpl.
  - apply respects_ret.
  - apply respects_bind; [apply Hb | intros _; exact IH].
Qed.

End Respects.

(** One step of a proof that a program respects a relation: the structure
    of the program decides the rule; what is left is about single events
    and calls. *)
Ltac respects_step :=
  lazymatch goal with
  | |- respects _ (ret _) => apply respects_ret
  | |- respects _ (sys_exit _) => apply respects_sys_exit
  | |- respects _ (raise _) => apply respects_raise
  | |- respects _ (query _) => apply respects_query
  | |- respects _ (test _) => apply respects_test
  | |- respects _ (unwrap _ _) => apply respects_unwrap
  | |- respects _ (emit _) => apply respects_emit
  | |- respects _ (log _ _) => apply respects_log
  | |- respects _ (effect _) => apply respects_effect
  | |- respects _ (engine _ _) => apply respects_engine
  | |- respects _ (shutil_rmtree _) => apply respects_shutil_rmtree
  | |- respects _ (bind _ _) => apply respects_bind
  | |- respects _ (try_except _ _) => apply respects_try_except
  | |- respects _ (try_except_all _ _) => apply respects_try_except_all
  | |- respects _ (finally _ _) => apply respects_finally
  | |- respects _ (for_each _ _) => apply respects_for_each
  | |- respects _ (match ?x with _ => _ end) => destruct x
  | |- respects _ (let _ := _ in _) => cbv zeta
  end.

(** ** Relations that compose along a run *)

Lemma engine_free_app (t1 t2 : list event) :
  engine_free t1 -> engine_free t2 -> engine_free (t1 ++ t2).
Proof. unfold engine_free. intros H1 H2. apply Forall_app. split; assumption. Qed.

Lemma engine_free_no_engine (tr tr1 tr2 : list event) c seen :
  engine_free tr -> tr = tr1 ++ EvEngine c seen :: tr2 -> False.
Proof.
  unfold engine_free. intros H ->. apply Forall_app in H as [_ H].
  inversion H as [|? ? He _]. discriminate He.
Qed.

(** An engine call in [l1 ++ l2], with [l1] free of engine calls, is a call
    in [l2]. *)
Lemma engine_free_split (l1 l2 tr1 tr2 : list event) c seen :
  engine_free l1 ->
  l1 ++ l2 = tr1 ++ EvEngine c seen :: tr2 ->
  exists tr1', tr1 = l1 ++ tr1' /\ l2 = tr1' ++ EvEngine c seen :: tr2.
Proof.
  revert tr1. induction l1 as [|e l1 IH]; intros tr1 Hfree Heq.
  - exists tr1. split; [reflexivity | exact Heq].
  - inversion Hfree as [|? ? He Hfree']; subst.
    destruct tr1 as [|e' tr1]; simpl in Heq.
    + inversion Heq; subst. discriminate He.
    + inversion Heq; subst. destruct (IH tr1 Hfree' H1) as (tr1' & -> & ->).
      exists tr1'. split; reflexivity.
Qed.



Lemma quiet_engine_free (tr : list event) : quiet tr -> engine_free tr.
Proof. intros H. eapply Forall_impl; [exact H|]. intros e [He _]. exact He. Qed.

Lemma quiet_rmtree_free (tr : list event) : quiet tr -> rmtree_free tr.
Proof. intros H. eapply Forall_impl; [exact H|]. intros e [_ He]. exact He. Qed.

Lemma quiet_app (t1 t2 : list event) : quiet t1 -> quiet t2 -> quiet (t1 ++ t2).
Proof. unfold quiet. intros H1 H2. apply Forall_app. split; assumption. Qed.

Lemma rmtree_free_not_in (tr : list event) d : rmtree_free tr -> In (EvRmtree d) tr -> False.
Proof.
  unfold rmtree_free. rewrite Forall_forall. intros H Hin.
  apply list_elem_of_In in Hin. specialize (H _ Hin). discriminate H.
Qed.

Lemma first_engine_split (tr : list event) c seen :
  first_engine tr = Some (c, seen) ->
  exists tr1 tr2, tr = tr1 ++ EvEngine c seen :: tr2 /\ engine_free tr1.
Proof.
  induction tr as [|e tr IH]; [discriminate|].
  destruct e; simpl; intros H;
    try (destruct (IH H) as (tr1 & tr2 & -> & Hfree);
         eexists (_ :: tr1), tr2; split; [reflexivity | constructor; [reflexivity | exact Hfree]]).
  inversion H; subst. exists [], tr. split; [reflexivity | constructor].
Qed.

Lemma existsb_engine_first (tr : list event) :
  existsb is_engine tr = true -> exists c seen, first_engine tr = Some (c, seen).
Proof.
  induction tr as [|e tr IH]; [discriminate|].
  destruct e; simpl; try exact IH. intros _. eauto.
Qed.

(** A run is the triple of its result, its final file system and its trace. *)
Lemma run_intro {A} (x : outcome A * FS * list event) (r : outcome A) :
  result x = r -> x = (r, final_fs x, trace x).
Proof. destruct x as [[o f] t]. intros H. simpl in H. subst r. reflexivity. Qed.

Lemma reads_only_refl fs : reads_only fs fs [].
Proof. split; [reflexivity | constructor]. Qed.

Lemma reads_only_app fs1 fs2 fs3 t1 t2 :
  reads_only fs1 fs2 t1 -> reads_only fs2 fs3 t2 -> reads_only fs1 fs3 (t1 ++ t2).
Proof.
  intros [-> H1] [-> H2]. split; [reflexivity | apply quiet_app; assumption].
Qed.

Lemma quietly_refl fs : quietly fs fs [].
Proof. constructor. Qed.

Lemma quietly_app (fs1 fs2 fs3 : FS) t1 t2 :
  quietly fs1 fs2 t1 -> quietly fs2 fs3 t2 -> quietly fs1 fs3 (t1 ++ t2).
Proof. apply quiet_app. Qed.

Lemma without_rmtree_refl fs : without_rmtree fs fs [].
Proof. constructor. Qed.

Lemma without_rmtree_app (fs1 fs2 fs3 : FS) t1 t2 :
  without_rmtree fs1 fs2 t1 -> without_rmtree fs2 fs3 t2 ->
  without_rmtree fs1 fs3 (t1 ++ t2).
Proof. unfold without_rmtree, rmtree_free. intros H1 H2. apply Forall_app. split; assumption. Qed.

Lemma only_logs_refl fs : only_logs fs fs [].
Proof. split; [reflexivity | constructor]. Qed.

Lemma only_logs_app fs1 fs2 fs3 t1 t2 :
  only_logs fs1 fs2 t1 -> only_logs fs2 fs3 t2 -> only_logs fs1 fs3 (t1 ++ t2).
Proof.
  intros [-> H1] [-> H2]. split; [reflexivity | apply Forall_app; split; assumption].
Qed.



Lemma engines_given_refl s p fs : engines_given s p fs fs [].
Proof. constructor. Qed.

Lemma engines_given_app s p (fs1 fs2 fs3 : FS) t1 t2 :
  engines_given s p fs1 fs2 t1 -> engines_given s p fs2 fs3 t2 ->
  engines_given s p fs1 fs3 (t1 ++ t2).
Proof. unfold engines_given. intros H1 H2. apply Forall_app. split; assumption. Qed.



(** The proofs that a command respects one of these relations follow the
    structure of the command; [leaf] settles the single events and calls. *)
Ltac respects_with refl app leaf :=
  repeat first
    [ exact refl
    | exact app
    | respects_step
    | progress intros
    | leaf ].

Ltac reads_only_leaf :=
  solve [ split; [reflexivity | repeat constructor] ].

Ltac quietly_leaf :=
  solve [ unfold quietly, quiet; repeat constructor ].

Ltac without_rmtree_leaf :=
  solve [ unfold without_rmtree, rmtree_free; repeat constructor ].

Ltac only_logs_leaf :=
  solve [ split; [reflexivity | repeat constructor] ].

(** ** Inversion of returning runs *)

Lemma query_ret_inv {A} (f : FS -> outcome A) fs a fs' tr :
  query f fs = (Ret a, fs', tr) -> f fs = Ret a /\ fs' = fs /\ tr = [].
Proof. unfold query. intros H. inversion H; subst. auto. Qed.

Lemma test_ret_inv (f : FS -> bool) fs b fs' tr :
  test f fs = (Ret b, fs', tr) -> b = f fs /\ fs' = fs /\ tr = [].
Proof. unfold test. intros H. inversion H; subst. auto. Qed.

Lemma effect_ret_inv {A} (f : FS -> outcome A * FS) fs a fs' tr :
  effect f fs = (Ret a, fs', tr) -> f fs = (Ret a, fs') /\ tr = [].
Proof. unfold effect. destruct (f fs) as [r fs1]. intros H. inversion H; subst. auto. Qed.

Lemma emit_ret_inv e fs u fs' tr :
  emit e fs = (Ret u, fs', tr) -> fs' = fs /\ tr = [e].
Proof. unfold emit. intros H. inversion H; subst. auto. Qed.

Lemma ret_ret_inv {A} (a b : A) fs fs' tr :
  ret a fs = (Ret b, fs', tr) -> b = a /\ fs' = fs /\ tr = [].
Proof. unfold ret. intros H. inversion H; subst. auto. Qed.

Lemma unwrap_ret_inv {A} e (x : option A) fs a fs' tr :
  unwrap e x fs = (Ret a, fs', tr) -> x = Some a /\ fs' = fs /\ tr = [].
Proof. destruct x; unfold unwrap, ret, raise; intros H; inversion H; subst; auto. Qed.

(** A returning run of the bare [try] either is a returning run of its body
    or went through the handler after the body failed. *)
Lemma try_except_all_ret_inv {A} (m h : prog A) fs a fs' tr :
  try_except_all m h fs = (Ret a, fs', tr) ->
  m fs = (Ret a, fs', tr)
  \/ exists o fs1 t1 t2,
       m fs = (o, fs1, t1) /\ (forall b, o <> Ret b)
       /\ h fs1 = (Ret a, fs', t2) /\ tr = t1 ++ t2.
Proof.
  unfold try_except_all. destruct (m fs) as [[[b|msg|e] fs1] t1] eqn:Hm.
  - intros H. left. exact H.
  - destruct (h fs1) as [[r fs2] t2] eqn:Hh. intros H. inversion H; subst.
    right. exists (Exit msg), fs1, t1, t2. repeat split; auto; intros; discriminate.
  - destruct (h fs1) as [[r fs2] t2] eqn:Hh. intros H. inversion H; subst.
    right. exists (Raise e), fs1, t1, t2. repeat split; auto; intros; discriminate.
Qed.

(** Takes returning runs apart, down to the calls they are made of. *)
Ltac prog_inv :=
  repeat match goal with
    | H : bind _ _ _ = (Ret _, _, _) |- _ =>
        apply bind_ret_inv in H as (? & ? & ? & ? & ? & ? & ?)
    | H : query _ _ = (Ret _, _, _) |- _ => apply query_ret_inv in H as (? & ? & ?)
    | H : test _ _ = (Ret _, _, _) |- _ => apply test_ret_inv in H as (? & ? & ?)
    | H : effect _ _ = (Ret _, _, _) |- _ => apply effect_ret_inv in H as (? & ?)
    | H : emit _ _ = (Ret _, _, _) |- _ => apply emit_ret_inv in H as (? & ?)
    | H : log _ _ _ = (Ret _, _, _) |- _ => apply emit_ret_inv in H as (? & ?)
    | H : ret _ _ = (Ret _, _, _) |- _ => apply ret_ret_inv in H as (? & ? & ?)
    | H : unwrap _ _ _ = (Ret _, _, _) |- _ => apply unwrap_ret_inv in H as (? & ? & ?)
    | H : sys_exit _ _ = (Ret _, _, _) |- _ => discriminate H
    | H : raise _ _ = (Ret _, _, _) |- _ => discriminate H
    | H : (match ?x with _ => _ end) _ = (Ret _, _, _) |- _ => destruct x eqn:?
    | H : (let _ := _ in _) _ = (Ret _, _, _) |- _ => cbv zeta in H
    end.

Section Stages.

Context (cwd : string) (E : externals).

Lemma target_child_text_reads_only target child :
  respects reads_only (target_child_text E target child).
Proof.
  unfold target_child_text.
  respects_with reads_only_refl reads_only_app reads_only_leaf.
Qed.

Lemma target_child_text_run target child fs :
  target_child_text E target child fs =
  (match utils_target_xml E target fs with
   | Ret (Some t) =>
       match Xml.find child t with
       | Some c =>
           match Xml.text c with
           | Some x => Ret (PyStr.strip x)
           | None => Raise AttributeError
           end
       | None => Raise AttributeError
       end
   | Ret None => Raise AttributeError
   | Exit msg => Exit msg
   | Raise e => Raise e
   end, fs, []).
Proof.
  unfold target_child_text, bind, query.
  destruct (utils_target_xml E target fs) as [[t|]|msg|e]; try reflexivity.
  simpl. destruct (Xml.find child t) as [c|]; try reflexivity.
  simpl. destruct (Xml.text c) as [x|]; reflexivity.
Qed.

Lemma target_child_text_ret target child fs s fs' tr :
  target_child_text E target child fs = (Ret s, fs', tr) ->
  manifest_child E fs target child = Some s /\ fs' = fs /\ tr = [].
Proof.
  rewrite target_child_text_run. unfold manifest_child.
  destruct (utils_target_xml E target fs) as [[t|]|msg|e]; try discriminate.
  destruct (Xml.find child t) as [c|]; try discriminate.
  destruct (Xml.text c) as [x|]; try discriminate.
  intros H. inversion H; subst. auto.
Qed.

Lemma target_child_text_some target child fs s :
  manifest_child E fs target child = Some s ->
  target_child_text E target child fs = (Ret s, fs, []).
Proof.
  rewrite target_child_text_run. unfold manifest_child.
  destruct (utils_target_xml E target fs) as [[t|]|msg|e]; try discriminate.
  destruct (Xml.find child t) as [c|]; try discriminate.
  destruct (Xml.text c) as [x|]; try discriminate.
  intros H. inversion H; subst. reflexivity.
Qed.

Lemma build_locate_only_logs a : respects only_logs (build_locate E a).
Proof.
  unfold build_locate.
  respects_with only_logs_refl only_logs_app only_logs_leaf.
Qed.

Lemma build_pull_reads_only a loc : respects reads_only (build_pull E a loc).
Proof.
  unfold build_pull.
  respects_with reads_only_refl reads_only_app
    ltac:(first [apply target_child_text_reads_only | reads_only_leaf]).
Qed.

Lemma build_locate_reads_only a : respects reads_only (build_locate E a).
Proof.
  unfold build_locate.
  respects_with reads_only_refl reads_only_app reads_only_leaf.
Qed.

Lemma build_resolve_reads_only a : respects reads_only (build_resolve E a).
Proof.
  unfold build_resolve. apply respects_bind.
  - exact reads_only_app.
  - apply build_locate_reads_only.
  - intros loc. apply build_pull_reads_only.
Qed.

Lemma build_select_publication_reads_only sp pub :
  respects reads_only (build_select_publication cwd E sp pub).
Proof.
  unfold build_select_publication.
  respects_with reads_only_refl reads_only_app reads_only_leaf.
Qed.

Lemma build_prepare_quietly a r : respects quietly (build_prepare cwd E a r).
Proof.
  unfold build_prepare, build_validate, build_select_publication, ensure_directory.
  respects_with quietly_refl quietly_app quietly_leaf.
Qed.

Lemma build_dispatch_without_rmtree a r p :
  respects without_rmtree (build_dispatch E a r p).
Proof.
  unfold build_dispatch.
  respects_with without_rmtree_refl without_rmtree_app without_rmtree_leaf.
Qed.


Lemma build_dispatch_engines_given a r p :
  respects (engines_given (pre_source p) (pre_publication p)) (build_dispatch E a r p).
Proof.
  unfold build_dispatch.
  respects_with (engines_given_refl (pre_source p) (pre_publication p))
                (engines_given_app (pre_source p) (pre_publication p))
                ltac:(solve [unfold engines_given; repeat constructor]).
Qed.

End Stages.

Lemma respects_run (R : FS -> FS -> list event -> Prop) {A} (m : prog A) fs r fs' tr :
  respects R m -> m fs = (r, fs', tr) -> R fs fs' tr.
Proof. intros H Hrun. specialize (H fs). rewrite Hrun in H. exact H. Qed.

Section Build.

Context (cwd : string) (E : externals).

Lemma build_clean_run output fs :
  build_clean output fs =
  (Ret tt,
   if isdir fs output then rmtree output fs else fs,
   if isdir fs output then [EvRmtree output] else []).
Proof.
  unfold build_clean, bind, test. destruct (isdir fs output); reflexivity.
Qed.

(** What a returning run of the preparation stage has done. *)
Lemma build_prepare_ret a r fs p fs2 t2 :
  build_prepare cwd E a r fs = (Ret p, fs2, t2) ->
  utils_xml_syntax_check E (res_source r) fs = Ret tt
  /\ utils_schema_validate E (res_source r) fs = Ret tt
  /\ (exists tsel,
        build_select_publication cwd E (stringparams_of (arg_param a))
          (res_publication r) fs = (Ret (pre_publication p), fs, tsel))
  /\ (exists t2',
        t2 = EvXmlSyntaxCheck (res_source r) :: EvSchemaValidate (res_source r) :: t2')
  /\ pre_source p = abspath cwd (res_source r)
  /\ pre_output p = abspath cwd (res_output r)
  /\ pre_stringparams p = stringparams_of (arg_param a)
  /\ (ensure_directory_keeps_dirs E ->
      forall q, isdir fs q = true -> isdir fs2 q = true).
Proof.
  unfold build_prepare, build_validate, ensure_directory. intros H.
  apply bind_ret_inv in H as (u & fs_v & t_v & t_rest & Hv & H & ->).
  apply bind_ret_inv in H as (pub & fs_s & t_s & t_rest' & Hs & H & ->).
  pose proof (respects_run _ _ _ _ _ _
                (build_select_publication_reads_only cwd E _ _) Hs) as [Hfs _].
  prog_inv. subst. simpl.
  repeat match goal with u : unit |- _ => destruct u end.
  repeat split; eauto.
  intros Hkeep q Hq.
  repeat match goal with
         | H : utils_ensure_directory E ?d ?f = (_, ?f') |- _ =>
             let K := fresh in
             assert (K : f' = (utils_ensure_directory E d f).2) by (rewrite H; reflexivity);
             clear H; subst f'
         end.
  apply Hkeep. apply Hkeep. exact Hq.
Qed.

(** A run of [build] either gets through resolution and preparation, clears
    the output directory and dispatches, or stops before without having
    called the engine or removed anything. *)
Lemma build_run a fs :
  (exists r t1 p fs2 t2,
      build_resolve E a fs = (Ret r, fs, t1) /\ quiet t1
      /\ build_prepare cwd E a r fs = (Ret p, fs2, t2) /\ quiet t2
      /\ build cwd E a fs =
         (result (build_dispatch E a r p
                    (if isdir fs2 (pre_output p) then rmtree (pre_output p) fs2 else fs2)),
          final_fs (build_dispatch E a r p
                    (if isdir fs2 (pre_output p) then rmtree (pre_output p) fs2 else fs2)),
          t1 ++ t2 ++ (if isdir fs2 (pre_output p) then [EvRmtree (pre_output p)] else [])
             ++ trace (build_dispatch E a r p
                    (if isdir fs2 (pre_output p) then rmtree (pre_output p) fs2 else fs2))))
  \/ quiet (trace (build cwd E a fs)).
Proof.
  unfold build.
  destruct (build_resolve E a fs) as [[o1 fs1] t1] eqn:H1.
  destruct (respects_run _ _ _ _ _ _ (build_resolve_reads_only E a) H1) as [-> Hq1].
  destruct o1 as [r|msg|e].
  2:{ right. rewrite (bind_exit_run _ _ _ _ _ _ H1). exact Hq1. }
  2:{ right. rewrite (bind_raise_run _ _ _ _ _ _ H1). exact Hq1. }
  destruct (build_prepare cwd E a r fs) as [[o2 fs2] t2] eqn:H2.
  pose proof (respects_run _ _ _ _ _ _ (build_prepare_quietly cwd E a r) H2) as Hq2.
  destruct o2 as [p|msg|e].
  - left. exists r, t1, p, fs2, t2. repeat split; auto.
    rewrite (bind_ret_run _ _ _ _ _ _ H1). simpl.
    rewrite (bind_ret_run _ _ _ _ _ _ H2). simpl.
    rewrite (bind_ret_run _ _ _ _ _ _ (build_clean_run _ _)). simpl.
    reflexivity.
  - right. rewrite (bind_ret_run _ _ _ _ _ _ H1). simpl.
    rewrite (bind_exit_run _ _ _ _ _ _ H2). simpl.
    apply quiet_app; assumption.
  - right. rewrite (bind_ret_run _ _ _ _ _ _ H1). simpl.
    rewrite (bind_raise_run _ _ _ _ _ _ H2). simpl.
    apply quiet_app; assumption.
Qed.


(** C6: whenever [build] calls the engine, the XML syntax check and the
    schema validation of the source have both been called before, in this
    order, and have returned; the engine is given the absolute path of the
    source that was checked. *)
Theorem build_validates_before_engine a fs tr1 c seen tr2 :
  trace (build cwd E a fs) = tr1 ++ EvEngine c seen :: tr2 ->
  exists source pre post,
    tr1 = pre ++ EvXmlSyntaxCheck source :: EvSchemaValidate source :: post
    /\ utils_xml_syntax_check E source fs = Ret tt
    /\ utils_schema_validate E source fs = Ret tt
    /\ engine_source c = abspath cwd source.
Proof.
  intros Htr.
  destruct (build_run a fs) as [(r & t1 & p & fs2 & t2 & Hr & Hq1 & Hp & Hq2 & Hb) | Hq].
  2:{ exfalso. eapply engine_free_no_engine; [apply quiet_engine_free; exact Hq | exact Htr]. }
  rewrite Hb in Htr. unfold trace in Htr. simpl in Htr.
  apply build_prepare_ret in Hp as (Hx & Hs & _ & [t2' ->] & Hsrc & _).
  set (t3 := if isdir fs2 (pre_output p) then [EvRmtree (pre_output p)] else []) in *.
  set (fs3 := if isdir fs2 (pre_output p) then rmtree (pre_output p) fs2 else fs2) in *.
  assert (Hq3 : engine_free t3).
  { unfold t3. destruct (isdir fs2 (pre_output p)); repeat constructor. }
  rewrite !app_assoc in Htr.
  apply engine_free_split in Htr as (tr1' & -> & Hd).
  2:{ repeat apply engine_free_app; auto using quiet_engine_free. }
  exists (res_source r), t1, (t2' ++ t3 ++ tr1').
  split; [ | split; [exact Hx | split; [exact Hs | ] ] ].
  - rewrite <- !app_assoc. simpl. reflexivity.
  - pose proof (build_dispatch_engines_given E a r p fs3) as Hg.
    unfold engines_given, trace in Hg. rewrite Hd in Hg.
    apply Forall_app in Hg as [_ Hg]. inversion Hg as [|? ? Hc _]; subst.
    simpl in Hc. destruct Hc as [Hc _]. rewrite Hc. exact Hsrc.
Qed.


Lemma quiet_not_engine tr c seen : quiet tr -> In (EvEngine c seen) tr -> False.
Proof.
  intros Hq Hin. apply (proj1 (List.Forall_forall _ _) Hq) in Hin as [He _]. discriminate He.
Qed.


End Build.

Section Resolution.

Context (cwd : string) (E : externals).


(** A bare [try] around a lookup in the manifest's target runs the rest of
    its body when the child is there, and its handler when it is not. *)
Lemma try_child_run {A} target child (k : string -> prog A) (h : prog A) fs :
  (exists t, utils_target_xml E target fs = Ret (Some t)) ->
  try_except_all (s <- target_child_text E target child ;; k s) h fs =
  match manifest_child E fs target child with
  | Some s => try_except_all (k s) h fs
  | None => h fs
  end.
Proof.
  intros [t Ht]. unfold try_except_all, bind. rewrite target_child_text_run.
  unfold manifest_child. rewrite Ht.
  destruct (Xml.find child t) as [c|]; simpl.
  - destruct (Xml.text c) as [x|]; simpl.
    + destruct (k (PyStr.strip x) fs) as [[[b|msg|e] fs1] t1]; try reflexivity;
        destruct (h fs1) as [[r fs2] t2]; reflexivity.
    + destruct (h fs) as [[r fs2] t2]; reflexivity.
  - destruct (h fs) as [[r fs2] t2]; reflexivity.
Qed.

(** What a returning run of the second stage has settled. *)
Lemma build_pull_ret a loc fs r fs' tr :
  build_pull E a loc fs = (Ret r, fs', tr) ->
  res_target r = loc_target loc
  /\ (exists t, utils_target_xml E (loc_target loc) fs = Ret (Some t))
  /\ match loc_source loc with
     | Some s => res_source r = s
     | None => manifest_child E fs (loc_target loc) "source" = Some (res_source r)
     end
  /\ match loc_output loc with
     | Some o => res_output r = o
     | None => manifest_child E fs (loc_target loc) "output-dir" = Some (res_output r)
     end
  /\ match arg_publication a with
     | Some p => res_publication r = Some p
     | None => res_publication r = manifest_child E fs (loc_target loc) "publication"
     end
  /\ res_target_format r =
     match manifest_child E fs (loc_target loc) "format" with
     | Some f => Some f
     | None => loc_target loc
     end.
Proof.
  unfold build_pull. intros H.
  apply bind_ret_inv in H as (t & fs0 & ? & ? & Hq & H & ->).
  apply query_ret_inv in Hq as (Ht & -> & ->).
  destruct t as [t|].
  2:{ prog_inv. }
  assert (Hex : exists t, utils_target_xml E (loc_target loc) fs = Ret (Some t)) by eauto.
  apply bind_ret_inv in H as (? & ? & ? & ? & Hr & H & ->).
  apply ret_ret_inv in Hr as (_ & -> & ->).
  apply bind_ret_inv in H as (? & ? & ? & ? & Hl & H & ->).
  apply emit_ret_inv in Hl as (-> & ->).
  apply bind_ret_inv in H as (source & fs2 & ? & ? & Hsrc & H & ->).
  assert (Hs : fs2 = fs /\
               match loc_source loc with
               | Some s => source = s
               | None => manifest_child E fs (loc_target loc) "source" = Some source
               end).
  { clear H. destruct (loc_source loc) as [s|].
    - apply ret_ret_inv in Hsrc as (-> & -> & _). auto.
    - apply bind_ret_inv in Hsrc as (? & ? & ? & ? & K & Hsrc & ->).
      apply target_child_text_ret in K as (K & -> & _).
      prog_inv. subst. auto. }
  destruct Hs as [-> Hs]. clear Hsrc.
  apply bind_ret_inv in H as (output & fs3 & ? & ? & Hout & H & ->).
  assert (Ho : fs3 = fs /\
               match loc_output loc with
               | Some o => output = o
               | None => manifest_child E fs (loc_target loc) "output-dir" = Some output
               end).
  { clear H. destruct (loc_output loc) as [o|].
    - apply ret_ret_inv in Hout as (-> & -> & _). auto.
    - apply bind_ret_inv in Hout as (? & ? & ? & ? & K & Hout & ->).
      apply target_child_text_ret in K as (K & -> & _).
      prog_inv. subst. auto. }
  destruct Ho as [-> Ho]. clear Hout.
  apply bind_ret_inv in H as (publication & fs4 & ? & ? & Hpub & H & ->).
  assert (Hp : fs4 = fs /\
               match arg_publication a with
               | Some p => publication = Some p
               | None => publication = manifest_child E fs (loc_target loc) "publication"
               end).
  { destruct (arg_publication a) as [p|].
    - apply ret_ret_inv in Hpub as (-> & -> & _). auto.
    - rewrite (try_child_run _ _ _ _ _ Hex) in Hpub.
      destruct (manifest_child E fs (loc_target loc) "publication") as [s|].
      + unfold try_except_all, bind, log, emit, ret in Hpub. simpl in Hpub.
        inversion Hpub; subst. auto.
      + unfold bind, log, emit, ret in Hpub. simpl in Hpub.
        inversion Hpub; subst. auto. }
  destruct Hp as [-> Hp]. clear Hpub.
  apply bind_ret_inv in H as (target_format & fs5 & ? & ? & Hfmt & H & ->).
  apply ret_ret_inv in H as (-> & _ & _). simpl.
  rewrite (try_child_run _ _ _ _ _ Hex) in Hfmt.
  repeat split; auto.
  destruct (manifest_child E fs (loc_target loc) "format") as [s|].
  - unfold try_except_all, bind, log, emit, ret in Hfmt. simpl in Hfmt.
    inversion Hfmt; subst. reflexivity.
  - unfold bind, log, emit, ret in Hfmt. simpl in Hfmt.
    inversion Hfmt; subst. reflexivity.
Qed.

(** Resolution does return: when the manifest has the target and gives a
    [source] and an [output-dir] for whatever the command line leaves open,
    the second stage returns a configuration. *)
Lemma build_pull_returns a loc fs tx :
  utils_target_xml E (loc_target loc) fs = Ret (Some tx) ->
  (loc_source loc = None -> is_Some (manifest_child E fs (loc_target loc) "source")) ->
  (loc_output loc = None -> is_Some (manifest_child E fs (loc_target loc) "output-dir")) ->
  exists r tr, build_pull E a loc fs = (Ret r, fs, tr).
Proof.
  intros Htx Hs Ho. unfold manifest_child in Hs, Ho. rewrite Htx in Hs, Ho.
  assert (Hs' : loc_source loc = None ->
                exists c x, Xml.find "source" tx = Some c /\ Xml.text c = Some x).
  { intros H. specialize (Hs H). destruct (Xml.find "source" tx) as [c|].
    - destruct (Xml.text c) as [x|] eqn:Hx.
      + exists c, x. split; [reflexivity | exact Hx].
      + destruct Hs as [y Hy]. discriminate Hy.
    - destruct Hs as [y Hy]. discriminate Hy. }
  assert (Ho' : loc_output loc = None ->
                exists c x, Xml.find "output-dir" tx = Some c /\ Xml.text c = Some x).
  { intros H. specialize (Ho H). destruct (Xml.find "output-dir" tx) as [c|].
    - destruct (Xml.text c) as [x|] eqn:Hx.
      + exists c, x. split; [reflexivity | exact Hx].
      + destruct Ho as [y Hy]. discriminate Hy.
    - destruct Ho as [y Hy]. discriminate Hy. }
  clear Hs Ho.
  unfold build_pull, target_child_text, bind, query, try_except_all, log, emit, ret,
    unwrap, raise.
  destruct (loc_source loc) as [s|];
    [ | destruct (Hs' eq_refl) as (c & x & Hc & Hx) ];
    (destruct (loc_output loc) as [o|];
     [ | destruct (Ho' eq_refl) as (c' & x' & Hc' & Hx') ]);
    destruct (arg_publication a);
    repeat first
      [ rewrite Htx | rewrite Hc | rewrite Hx | rewrite Hc' | rewrite Hx'
      | progress simpl
      | match goal with
        | |- context [match Xml.find ?n tx with _ => _ end] => destruct (Xml.find n tx)
        | |- context [match Xml.text ?e with _ => _ end] => destruct (Xml.text e)
        end ];
    eexists _, _; reflexivity.
Qed.

Lemma build_resolve_returns a fs dir t tx :
  utils_project_path E None fs = Ret (Some dir) ->
  arg_target a = Some t ->
  utils_target_xml E (Some t) fs = Ret (Some tx) ->
  (arg_source a = None -> is_Some (manifest_child E fs (Some t) "source")) ->
  (arg_output a = None -> is_Some (manifest_child E fs (Some t) "output-dir")) ->
  exists r tr, build_resolve E a fs = (Ret r, fs, tr).
Proof.
  intros Hpath Ht Htx Hs Ho.
  set (loc := {| loc_manifest_dir := Some dir; loc_manifest := Some "project.ptx";
                 loc_target := arg_target a; loc_source := arg_source a;
                 loc_output := arg_output a |}).
  assert (Hloc : build_locate E a fs = (Ret loc, fs, [])).
  { unfold build_locate, bind, query. rewrite Hpath. simpl. rewrite Ht. simpl.
    unfold loc. rewrite Ht. reflexivity. }
  destruct (build_pull_returns a loc fs tx) as (r & tr & Hpull).
  - simpl. rewrite Ht. exact Htx.
  - simpl. rewrite Ht. exact Hs.
  - simpl. rewrite Ht. exact Ho.
  - exists r, tr. unfold build_resolve.
    rewrite (bind_ret_run _ _ _ _ _ _ Hloc), Hpull. reflexivity.
Qed.


(** C2: without a manifest, a target other than [html] and [latex] makes
    [build] log a critical message and exit; the run consists of the two log
    messages, so nothing is built and the file system is as it was. *)
Theorem build_exits_without_manifest a fs t :
  utils_project_path E None fs = Ret None ->
  arg_target a = Some t ->
  t <> "html" ->
  t <> "latex" ->
  build cwd E a fs =
  (Exit "`pretext build` did not complete.  Please try again.",
   fs,
   [ EvLog WARNING "No project manifest was found.  Run `pretext init` to generate one.";
     EvLog CRITICAL ("Without a project manifest, you can only build "
                     +:+ PyStr.dquote +:+ "html" +:+ PyStr.dquote +:+ " or "
                     +:+ PyStr.dquote +:+ "latex" +:+ PyStr.dquote +:+ ".  Exiting...") ]).
Proof.
  intros Hpath Ht Hhtml Hlatex.
  apply String.eqb_neq in Hhtml. apply String.eqb_neq in Hlatex.
  unfold build, build_resolve, build_locate, bind, query.
  rewrite Hpath, Ht. simpl. rewrite Hhtml, Hlatex. reflexivity.
Qed.

(** C3: when the target that [build] has settled on is not in the manifest,
    [build] logs a critical message and exits; up to there it has only
    logged, so nothing is built and the file system is as it was. *)
Theorem build_exits_on_missing_target a fs loc fs1 t1 :
  build_locate E a fs = (Ret loc, fs1, t1) ->
  utils_target_xml E (loc_target loc) fs = Ret None ->
  build cwd E a fs =
  (Exit "Exiting without completing task.",
   fs,
   t1 ++ [EvLog CRITICAL "Build target does not exist in project manifest project.ptx"])
  /\ Forall (fun e => is_log e = true) t1.
Proof.
  intros Hloc Htx.
  destruct (respects_run _ _ _ _ _ _ (build_locate_only_logs E a) Hloc) as [-> Hlogs].
  split; [ | exact Hlogs ].
  unfold build, build_resolve.
  apply bind_exit_run. rewrite (bind_ret_run _ _ _ _ _ _ Hloc).
  unfold build_pull, bind, query. rewrite Htx. reflexivity.
Qed.

(** C4: the fallback for a missing publication file is not reached when the
    file comes from the command line or the manifest.  When no [publisher]
    string parameter is given and the resolved publication file does not
    exist, [build] stops with [KeyError('publisher')] right after the two
    validation steps: the error message of line 204 is built from
    [stringparams['publisher']]. *)
Theorem build_missing_publication_raises a fs r fs1 t1 pub :
  build_resolve E a fs = (Ret r, fs1, t1) ->
  stringparams_of (arg_param a) !! "publisher" = None ->
  res_publication r = Some pub ->
  isfile fs (abspath cwd pub) = false ->
  utils_xml_syntax_check E (res_source r) fs = Ret tt ->
  utils_schema_validate E (res_source r) fs = Ret tt ->
  build cwd E a fs =
  (Raise (KeyError "publisher"),
   fs,
   t1 ++ [EvXmlSyntaxCheck (res_source r); EvSchemaValidate (res_source r)]).
Proof.
  intros Hres Hsp Hpub Hfile Hx Hs.
  destruct (respects_run _ _ _ _ _ _ (build_resolve_reads_only E a) Hres) as [-> _].
  unfold build. rewrite (bind_ret_run _ _ _ _ _ _ Hres).
  unfold build_prepare, build_validate, build_select_publication.
  rewrite Hsp, Hpub.
  unfold bind, emit, query, unwrap, ret, raise, test. rewrite Hx, Hs. simpl.
  rewrite Hfile. reflexivity.
Qed.

(** The other fallback does work: with [--webwork] and no [server] string
    parameter, the dispatch warns and then calls the engine with the default
    server. *)
Lemma build_dispatch_webwork_default a r p fs :
  arg_webwork a = true ->
  pre_stringparams p !! "server" = None ->
  exists rest,
    trace (build_dispatch E a r p fs) =
    EvLog WARNING "No server name, 'server'.  Using default https://webwork-ptx.aimath.org"
    :: EvEngine (Webwork (pre_source p) (pre_publication p)
                         (PosixPath.dirname (pre_source p)) (pre_stringparams p)
                         webwork_default_server) fs
    :: rest.
Proof.
  intros Hw Hs. unfold build_dispatch. cbv zeta. rewrite Hw, Hs.
  match goal with
  | |- context [trace (bind ?m ?k fs)] =>
      destruct (trace_bind_prefix m k fs) as [rest ->];
      assert (Hm : trace (m fs) =
                   [ EvLog WARNING
                       "No server name, 'server'.  Using default https://webwork-ptx.aimath.org";
                     EvEngine (Webwork (pre_source p) (pre_publication p)
                                 (PosixPath.dirname (pre_source p)) (pre_stringparams p)
                                 webwork_default_server) fs ])
  end.
  { unfold bind, try_except, unwrap, raise, log, emit, ret, engine. simpl.
    match goal with
    | |- context [builder E ?c fs] => destruct (builder E c fs) as [[u|msg|e] fs1]
    end; reflexivity. }
  rewrite Hm. exists rest. reflexivity.
Qed.

End Resolution.

Section OtherCommands.

Context (cwd : string) (E : externals).

(** C7, as the code has it: when [view] is given no directory and the
    project has no target of the given name, [view] logs an error and
    returns; it does not exit and starts no server. *)
Theorem view_missing_target_returns a fs proj :
  view_directory a = None ->
  Project E fs = Ret proj ->
  project_target E proj (view_target a) fs = Ret None ->
  view E a fs =
  (Ret tt, fs,
   [EvLog ERROR ("Target `" +:+ PyStr.fmt (view_target a) +:+ "` could not be found.")]).
Proof.
  intros Hdir Hproj Htarget. unfold view. rewrite Hdir.
  unfold bind, query. rewrite Hproj, Htarget. reflexivity.
Qed.

(** C9: where a project already exists, [new] and [init] warn twice and
    return: the file system is as it was, and nothing is fetched, extracted
    or copied. *)
Theorem new_and_init_leave_existing_project a fs dir :
  (utils_project_path E (Some (abspath cwd (new_directory a))) fs = Ret (Some dir) ->
   new cwd E a fs =
   (Ret tt, fs,
    [ EvLog WARNING ("A project already exists in `" +:+ dir +:+ "`.");
      EvLog WARNING "No new project will be generated." ]))
  /\ (utils_project_path E (Some (abspath cwd ".")) fs = Ret (Some dir) ->
      init cwd E fs =
      (Ret tt, fs,
       [ EvLog WARNING ("A project already exists in `" +:+ dir +:+ "`.");
         EvLog WARNING "No project manifest will be generated." ])).
Proof.
  split; intros H.
  - unfold new, bind, query. rewrite H. simpl. rewrite H. reflexivity.
  - unfold init, bind, query. rewrite H. simpl. rewrite H. reflexivity.
Qed.

End OtherCommands.

Section Frame.

Context (cwd : string) (E : externals).





End Frame.

(** ** The sample project *)




(** ** The theorems at work on the sample project *)

(** Without a project, [new] and [init] do write. *)
Example new_and_init_generate :
  result (new sample_cwd sample_E new_defaults bare_fs) = Ret tt
  /\ final_fs (new sample_cwd sample_E new_defaults bare_fs)
       !! "/proj/new-pretext-project/project.ptx" = Some (File "template")
  /\ result (init sample_cwd sample_E bare_fs) = Ret tt
  /\ final_fs (init sample_cwd sample_E bare_fs) !! "/proj/project.ptx"
     = Some (File "<project/>").
Proof. repeat split; vm_compute; reflexivity. Qed.

Example sample_build_runs :
  result (build sample_cwd sample_E build_defaults sample_fs) = Ret tt
  /\ final_fs (build sample_cwd sample_E build_defaults sample_fs)
       !! "/proj/output/html/index.html" = Some (File "new")
  /\ List.map is_engine (trace (build sample_cwd sample_E build_defaults sample_fs))
     = [false; false; false; false; false; false; false; false; false; false; false;
        false; true].
Proof. repeat split; vm_compute; reflexivity. Qed.


Lemma build_exits_without_manifest_witness :
  utils_project_path sample_E None bare_fs = Ret None
  /\ build sample_cwd sample_E build_epub bare_fs =
     (Exit "`pretext build` did not complete.  Please try again.",
      bare_fs,
      [ EvLog WARNING "No project manifest was found.  Run `pretext init` to generate one.";
        EvLog CRITICAL ("Without a project manifest, you can only build "
                        +:+ PyStr.dquote +:+ "html" +:+ PyStr.dquote +:+ " or "
                        +:+ PyStr.dquote +:+ "latex" +:+ PyStr.dquote +:+ ".  Exiting...") ]).
Proof.
  assert (H : utils_project_path sample_E None bare_fs = Ret None)
    by (vm_compute; reflexivity).
  split; [exact H|].
  apply (build_exits_without_manifest sample_cwd sample_E build_epub bare_fs "epub" H).
  - reflexivity.
  - discriminate.
  - discriminate.
Defined.

Lemma build_exits_on_missing_target_witness :
  result (build_locate sample_E build_epub sample_fs) = Ret sample_located_epub
  /\ utils_target_xml sample_E (Some "epub") sample_fs = Ret None
  /\ build sample_cwd sample_E build_epub sample_fs =
     (Exit "Exiting without completing task.",
      sample_fs,
      trace (build_locate sample_E build_epub sample_fs)
      ++ [EvLog CRITICAL "Build target does not exist in project manifest project.ptx"]).
Proof.
  assert (H : result (build_locate sample_E build_epub sample_fs) = Ret sample_located_epub)
    by (vm_compute; reflexivity).
  assert (Hx : utils_target_xml sample_E (Some "epub") sample_fs = Ret None)
    by (vm_compute; reflexivity).
  split; [exact H | split; [exact Hx|]].
  exact (proj1 (build_exits_on_missing_target sample_cwd sample_E build_epub sample_fs
                  sample_located_epub _ _ (run_intro _ _ H) Hx)).
Defined.

Lemma build_missing_publication_raises_witness :
  result (build_resolve sample_E build_defaults sample_fs_no_publication)
  = Ret sample_resolved
  /\ isfile sample_fs_no_publication
       (abspath sample_cwd "publication/publication.ptx") = false
  /\ build sample_cwd sample_E build_defaults sample_fs_no_publication =
     (Raise (KeyError "publisher"),
      sample_fs_no_publication,
      trace (build_resolve sample_E build_defaults sample_fs_no_publication)
      ++ [EvXmlSyntaxCheck "source/main.ptx"; EvSchemaValidate "source/main.ptx"]).
Proof.
  assert (H : result (build_resolve sample_E build_defaults sample_fs_no_publication)
              = Ret sample_resolved)
    by (vm_compute; reflexivity).
  assert (Hf : isfile sample_fs_no_publication
                 (abspath sample_cwd "publication/publication.ptx") = false)
    by (vm_compute; reflexivity).
  split; [exact H | split; [exact Hf|]].
  apply (build_missing_publication_raises sample_cwd sample_E build_defaults
           sample_fs_no_publication sample_resolved _ _
           "publication/publication.ptx" (run_intro _ _ H)).
  - vm_compute; reflexivity.
  - reflexivity.
  - exact Hf.
  - vm_compute; reflexivity.
  - vm_compute; reflexivity.
Defined.


(** The output directory counts as the system resolves it:
    [pretext build html -o //proj] removes the project directory as well. *)
Example build_into_double_slash_removes_manifest :
  abspath sample_cwd "//proj" = "//proj"
  /\ final_fs (build sample_cwd sample_E build_into_double_slash sample_fs)
       !! "/proj/project.ptx" = None
  /\ List.filter is_rmtree
       (trace (build sample_cwd sample_E build_into_double_slash sample_fs))
     = [EvRmtree "//proj"].
Proof. repeat split; vm_compute; reflexivity. Qed.


Lemma build_validates_before_engine_witness :
  existsb is_engine (trace (build sample_cwd sample_E build_defaults sample_fs)) = true
  /\ exists source pre post c seen tr2,
       trace (build sample_cwd sample_E build_defaults sample_fs)
       = (pre ++ EvXmlSyntaxCheck source :: EvSchemaValidate source :: post)
         ++ EvEngine c seen :: tr2
       /\ engine_source c = abspath sample_cwd source.
Proof.
  assert (H : existsb is_engine
                (trace (build sample_cwd sample_E build_defaults sample_fs)) = true)
    by (vm_compute; reflexivity).
  split; [exact H|].
  destruct (existsb_engine_first _ H) as (c & seen & Hfirst).
  destruct (first_engine_split _ _ _ Hfirst) as (tr1 & tr2 & Htr & _).
  destruct (build_validates_before_engine sample_cwd sample_E build_defaults sample_fs
              tr1 c seen tr2 Htr)
    as (source & pre & post & Htr1 & _ & _ & Hsrc).
  exists source, pre, post, c, seen, tr2.
  split; [rewrite <- Htr1; exact Htr | exact Hsrc].
Defined.

(** C7: a run of [view] that does not exit.  [pretext view epub] in the
    sample project, which has no such target, logs an error and returns. *)
Lemma view_epub_returns :
  result (view sample_E view_epub sample_fs) = Ret tt
  /\ trace (view sample_E view_epub sample_fs)
     = [EvLog ERROR "Target `epub` could not be found."].
Proof. split; vm_compute; reflexivity. Qed.

Lemma view_missing_target_returns_witness :
  project_target sample_E sample_manifest (Some "epub") sample_fs = Ret None
  /\ view sample_E view_epub sample_fs
     = (Ret tt, sample_fs, [EvLog ERROR ("Target `" +:+ PyStr.fmt (Some "epub")
                                         +:+ "` could not be found.")]).
Proof.
  assert (H : project_target sample_E sample_manifest (Some "epub") sample_fs = Ret None)
    by (vm_compute; reflexivity).
  split; [exact H|].
  exact (view_missing_target_returns sample_E view_epub sample_fs sample_manifest
           eq_refl eq_refl H).
Defined.



Lemma new_and_init_leave_existing_project_witness :
  new sample_cwd sample_E new_defaults sample_fs =
  (Ret tt, sample_fs,
   [ EvLog WARNING ("A project already exists in `" +:+ "/proj" +:+ "`.");
     EvLog WARNING "No new project will be generated." ])
  /\ init sample_cwd sample_E sample_fs =
     (Ret tt, sample_fs,
      [ EvLog WARNING ("A project already exists in `" +:+ "/proj" +:+ "`.");
        EvLog WARNING "No project manifest will be generated." ]).
Proof.
  destruct (new_and_init_leave_existing_project sample_cwd sample_E new_defaults
              sample_fs "/proj") as [Hnew Hinit].
  split.
  - apply Hnew. vm_compute; reflexivity.
  - apply Hinit. vm_compute; reflexivity.
Defined.


(** * More theorems *)

(** ** String parameters (lines 196-197) *)

Lemma split_not_nil sep s : PyStr.split sep s <> [].
Proof.
  destruct s as [|c s]; simpl; [discriminate|].
  destruct (Ascii.eqb c sep); [discriminate|].
  destruct (PyStr.split sep s); discriminate.
Qed.

Lemma join_cons_char sep c h t :
  PyStr.join sep (String c h :: t) = String c (PyStr.join sep (h :: t)).
Proof. destruct t; reflexivity. Qed.

(** Joining what [split] gives, with the separator, gives the string back. *)
Lemma join_split c s :
  PyStr.join (String c EmptyString) (PyStr.split c s) = s.
Proof.
  induction s as [|d s IH]; [reflexivity|]. simpl.
  destruct (Ascii.eqb d c) eqn:Hd.
  - apply Ascii.eqb_eq in Hd. subst d.
    destruct (PyStr.split c s) as [|h t] eqn:Hs; [exfalso; eapply split_not_nil; eauto|].
    change (PyStr.join (String c EmptyString) (EmptyString :: h :: t))
      with (String c (PyStr.join (String c EmptyString) (h :: t))).
    rewrite IH. reflexivity.
  - destruct (PyStr.split c s) as [|h t] eqn:Hs; [exfalso; eapply split_not_nil; eauto|].
    rewrite join_cons_char, IH. reflexivity.
Qed.

(** A string with no separator in it is the first piece of what follows. *)
Lemma split_app_sep c k v :
  PyWords.has_char c k = false ->
  PyStr.split c (k +:+ String c v) = k :: PyStr.split c v.
Proof.
  induction k as [|d k IH]; simpl; intros H.
  - rewrite Ascii.eqb_refl. reflexivity.
  - apply orb_false_iff in H as [Hd Hk]. rewrite Hd.
    change (String.append k (String c v)) with (k +:+ String c v).
    rewrite (IH Hk). reflexivity.
Qed.

Lemma split_no_sep c k :
  PyWords.has_char c k = false -> PyStr.split c k = [k].
Proof.
  induction k as [|d k IH]; simpl; intros H; [reflexivity|].
  apply orb_false_iff in H as [Hd Hk]. rewrite Hd, (IH Hk). reflexivity.
Qed.

(** X1: a [--param] of the form [key:value] gives the key and the value
    with the white space around them stripped; the value is all that
    follows the first colon, later colons included.  Without a colon the
    whole parameter is the key and the value is empty. *)
Theorem param_entry_colon (k v : string) :
  PyWords.has_char ":" k = false ->
  param_entry (k +:+ ":" +:+ v) = (PyStr.strip k, PyStr.strip v)
  /\ param_entry k = (PyStr.strip k, EmptyString).
Proof.
  intros Hk. unfold param_entry. split.
  - change (k +:+ ":" +:+ v) with (k +:+ String ":" v).
    rewrite (split_app_sep _ _ _ Hk). simpl hd. simpl tl.
    rewrite (join_split ":" v). reflexivity.
  - rewrite (split_no_sep _ _ Hk). reflexivity.
Qed.

Lemma param_entry_colon_witness :
  param_entry (" server " +:+ ":" +:+ " https://example.org:8080 ")
  = (PyStr.strip " server ", PyStr.strip " https://example.org:8080 ")
  /\ param_entry " server " = (PyStr.strip " server ", EmptyString).
Proof. apply (param_entry_colon " server " " https://example.org:8080 "). reflexivity. Defined.

(** X2: the string parameters hold, for each key, the value of the last
    [--param] with that key; a key that no [--param] has is not there. *)
Theorem stringparams_of_lookup (param : list string) (k : string) :
  stringparams_of param !! k
  = snd <$> last (List.filter (fun kv => String.eqb kv.1 k) (List.map param_entry param)).
Proof.
  unfold stringparams_of. generalize (List.map param_entry param). intros es.
  induction es as [|[k' v'] es IH] using rev_ind; [reflexivity|].
  rewrite fold_left_app, List.filter_app. simpl.
  destruct (String.eqb k' k) eqn:Hk.
  - apply String.eqb_eq in Hk. subst k'. rewrite lookup_insert_eq, last_snoc. reflexivity.
  - apply String.eqb_neq in Hk. rewrite lookup_insert_ne by exact Hk.
    rewrite app_nil_r. exact IH.
Qed.

(** ** raise_cli_error (lines 23-24) *)

Lemma split_ws_space c s :
  PyStr.is_space c = true -> PyWords.split_ws (String c s) = PyWords.split_ws s.
Proof. intros H. simpl. rewrite H. reflexivity. Qed.

Lemma split_ws_nonspace c d s :
  PyStr.is_space c = false -> PyStr.is_space d = false ->
  PyWords.split_ws (String c (String d s))
  = match PyWords.split_ws (String d s) with
    | w :: ws => String c w :: ws
    | [] => [String c EmptyString]
    end.
Proof.
  intros Hc Hd.
  change (PyWords.split_ws (String c (String d s)))
    with (if PyStr.is_space c then PyWords.split_ws (String d s)
          else if PyStr.is_space d then String c EmptyString :: PyWords.split_ws (String d s)
               else match PyWords.split_ws (String d s) with
                    | w :: ws => String c w :: ws
                    | [] => [String c EmptyString]
                    end).
  rewrite Hc, Hd. reflexivity.
Qed.

(** What [split_ws] gives are words. *)
Lemma split_ws_words s : Forall PyWords.is_word (PyWords.split_ws s).
Proof.
  induction s as [|c s IH]; [constructor|].
  cbn [PyWords.split_ws]. destruct (PyStr.is_space c) eqn:Hc; [exact IH|].
  assert (Hone : PyWords.is_word (String c EmptyString)).
  { split; [discriminate | simpl; rewrite Hc; reflexivity]. }
  destruct s as [|d s']; [constructor; [exact Hone | constructor]|].
  destruct (PyStr.is_space d) eqn:Hd; [constructor; [exact Hone | exact IH]|].
  destruct (PyWords.split_ws (String d s')) as [|w ws]; [constructor; [exact Hone | constructor]|].
  inversion IH as [|? ? [Hw1 Hw2] Hws]; subst.
  constructor; [|exact Hws].
  split; [discriminate | simpl; rewrite Hc; exact Hw2].
Qed.

(** A word in front of nothing, or of white space, is the first word. *)
Lemma split_ws_word_app w rest :
  PyWords.is_word w ->
  (rest = EmptyString \/ exists c r, rest = String c r /\ PyStr.is_space c = true) ->
  PyWords.split_ws (w +:+ rest) = w :: PyWords.split_ws rest.
Proof.
  intros [Hne Hsp] Hrest. induction w as [|c w IH]; [congruence|].
  simpl in Hsp. apply orb_false_iff in Hsp as [Hc Hw].
  destruct w as [|c' w'].
  - change (String c EmptyString +:+ rest) with (String c rest).
    cbn [PyWords.split_ws]. rewrite Hc.
    destruct Hrest as [-> | (d & r & -> & Hd)]; [reflexivity|].
    rewrite Hd. reflexivity.
  - assert (Hc' : PyStr.is_space c' = false).
    { simpl in Hw. apply orb_false_iff in Hw as [H _]. exact H. }
    change (String c (String c' w') +:+ rest) with (String c (String c' (w' +:+ rest))).
    rewrite (split_ws_nonspace _ _ _ Hc Hc').
    change (String c' (w' +:+ rest)) with (String c' w' +:+ rest).
    rewrite (IH ltac:(discriminate) Hw). reflexivity.
Qed.

Lemma app_empty_r (s : string) : s +:+ EmptyString = s.
Proof.
  induction s as [|c s IH]; [reflexivity|].
  change (String c (s +:+ EmptyString) = String c s). rewrite IH. reflexivity.
Qed.

(** Splitting words joined by single spaces gives the words back. *)
Lemma split_ws_join (l : list string) :
  Forall PyWords.is_word l -> PyWords.split_ws (PyStr.join " " l) = l.
Proof.
  induction 1 as [|w l Hw Hl IH]; [reflexivity|].
  destruct l as [|w' l'].
  - assert (H := split_ws_word_app w EmptyString Hw (or_introl eq_refl)).
    rewrite app_empty_r in H. exact H.
  - change (PyStr.join " " (w :: w' :: l')) with (w +:+ " " +:+ PyStr.join " " (w' :: l')).
    rewrite (split_ws_word_app w _ Hw).
    + change (" " +:+ PyStr.join " " (w' :: l'))
        with (String " " (PyStr.join " " (w' :: l'))).
      rewrite split_ws_space by reflexivity. rewrite IH. reflexivity.
    + right. eexists _, _. split; reflexivity.
Qed.

(** X3: [raise_cli_error] always raises, with the message made of the
    words of [message] separated by single spaces: the words are those of
    [message], and normalising the message again changes nothing. *)
Theorem raise_cli_error_normalizes {A} (message : string) (fs : FS) :
  @raise_cli_error A message fs
  = (Raise (OtherError (PyWords.normalize message)), fs, [])
  /\ PyWords.split_ws (PyWords.normalize message) = PyWords.split_ws message
  /\ PyWords.normalize (PyWords.normalize message) = PyWords.normalize message.
Proof.
  assert (H : PyWords.split_ws (PyWords.normalize message) = PyWords.split_ws message).
  { unfold PyWords.normalize. apply split_ws_join. apply split_ws_words. }
  split; [reflexivity | split; [exact H|]].
  unfold PyWords.normalize at 1. rewrite H. reflexivity.
Qed.

Example normalize_example :
  PyWords.normalize "  No such
   target:	html " = "No such target: html".
Proof. reflexivity. Qed.

(** ** More about the resolution of [build] (lines 134-188) *)

Section MoreResolution.

Context (cwd : string) (E : externals).

(** X4: with a manifest and no target on the command line, [build] works
    on the first [<target>] of the manifest, under the value of its [name]
    attribute; when the manifest has no [<target>] at all, [build] stops
    with an [AttributeError] before it logs or checks anything. *)
Theorem build_resolve_first_target a fs dir root :
  utils_project_path E None fs = Ret (Some dir) ->
  arg_target a = None ->
  utils_project_xml E fs = Ret root ->
  match Xml.find_path ["targets"; "target"] root with
  | Some first =>
      forall r fs' tr,
        build_resolve E a fs = (Ret r, fs', tr) -> res_target r = Xml.get "name" first
  | None => build cwd E a fs = (Raise AttributeError, fs, [])
  end.
Proof.
  intros Hpath Ht Hroot.
  assert (Hloc : build_locate E a fs =
                 match Xml.find_path ["targets"; "target"] root with
                 | Some first =>
                     (Ret {| loc_manifest_dir := Some dir;
                             loc_manifest := Some "project.ptx";
                             loc_target := Xml.get "name" first;
                             loc_source := arg_source a;
                             loc_output := arg_output a |},
                      fs,
                      [EvLog INFO ("Since no build target was supplied, we will build "
                                   +:+ PyStr.fmt (Xml.get "name" first)
                                   +:+ ", the first target of the project manifest "
                                   +:+ PyStr.fmt (Some "project.ptx") +:+ " in "
                                   +:+ PyStr.fmt (Some dir))])
                 | None => (Raise AttributeError, fs, [])
                 end).
  { unfold build_locate, bind, query. rewrite Hpath. simpl. rewrite Ht. simpl.
    rewrite Hroot. simpl.
    destruct (Xml.find_path ["targets"; "target"] root); reflexivity. }
  destruct (Xml.find_path ["targets"; "target"] root) as [first|].
  - intros r fs' tr Hres. unfold build_resolve in Hres.
    rewrite (bind_ret_run _ _ _ _ _ _ Hloc) in Hres.
    destruct (build_pull E a _ fs) as [[o fs2] t2] eqn:Hpull.
    simpl in Hres. inversion Hres; subst.
    apply build_pull_ret in Hpull as (Htarget & _). exact Htarget.
  - unfold build, build_resolve.
    apply bind_raise_run. apply bind_raise_run. exact Hloc.
Qed.

(** X5: the format [build] works with is the stripped text of the
    [<format>] child of the manifest's target; when there is none, it is the
    name of the target itself. *)
Theorem build_resolve_format a fs r fs' tr :
  build_resolve E a fs = (Ret r, fs', tr) ->
  res_target_format r =
  match manifest_child E fs (res_target r) "format" with
  | Some f => Some f
  | None => res_target r
  end.
Proof.
  unfold build_resolve. intros H.
  apply bind_ret_inv in H as (loc & fs1 & t1 & t2 & Hloc & Hpull & ->).
  destruct (respects_run _ _ _ _ _ _ (build_locate_only_logs E a) Hloc) as [-> _].
  apply build_pull_ret in Hpull as (Ht & _ & _ & _ & _ & Hf).
  rewrite Ht. exact Hf.
Qed.

(** X6: when neither the command line nor the manifest's target gives a
    source, [build] stops with an [AttributeError] right after its first
    debug message: nothing is validated, removed or built, and the file
    system is as it was. *)
Theorem build_missing_source_raises a fs loc fs1 t1 tx :
  build_locate E a fs = (Ret loc, fs1, t1) ->
  utils_target_xml E (loc_target loc) fs = Ret (Some tx) ->
  loc_source loc = None ->
  manifest_child E fs (loc_target loc) "source" = None ->
  build cwd E a fs =
  (Raise AttributeError, fs,
   t1 ++ [EvLog DEBUG ("source = None, output = " +:+ PyStr.fmt (loc_output loc)
                       +:+ ", publisher = " +:+ PyStr.fmt (arg_publication a))]).
Proof.
  intros Hloc Htx Hsrc Hchild.
  destruct (respects_run _ _ _ _ _ _ (build_locate_only_logs E a) Hloc) as [-> _].
  unfold build, build_resolve. apply bind_raise_run.
  rewrite (bind_ret_run _ _ _ _ _ _ Hloc).
  assert (Hpull : build_pull E a loc fs =
                  (Raise AttributeError, fs,
                   [EvLog DEBUG ("source = None, output = " +:+ PyStr.fmt (loc_output loc)
                                 +:+ ", publisher = " +:+ PyStr.fmt (arg_publication a))])).
  { unfold manifest_child in Hchild. rewrite Htx in Hchild.
    unfold build_pull, target_child_text, bind, query, log, emit, ret, unwrap, raise.
    rewrite Htx. simpl. rewrite Hsrc. rewrite Htx. simpl.
    destruct (Xml.find "source" tx) as [c|]; [|reflexivity].
    simpl. destruct (Xml.text c); [discriminate | reflexivity]. }
  rewrite Hpull. reflexivity.
Qed.

End MoreResolution.

Lemma build_resolve_first_target_witness :
  Xml.find_path ["targets"; "target"] sample_manifest
  = Some (sample_target "html" "html" " source/main.ptx "
            "publication/publication.ptx" "output/html")
  /\ result (build_resolve sample_E build_defaults sample_fs) = Ret sample_resolved
  /\ res_target sample_resolved = Some "html".
Proof.
  assert (Hres : result (build_resolve sample_E build_defaults sample_fs)
                 = Ret sample_resolved) by (vm_compute; reflexivity).
  assert (Hpath : utils_project_path sample_E None sample_fs = Ret (Some "/proj"))
    by (vm_compute; reflexivity).
  split; [reflexivity | split; [exact Hres|]].
  exact (build_resolve_first_target sample_cwd sample_E build_defaults sample_fs "/proj"
           sample_manifest Hpath eq_refl eq_refl _ _ _ (run_intro _ _ Hres)).
Defined.

Lemma build_resolve_format_witness :
  manifest_child epub_E sample_fs (Some "web") "format" = None
  /\ result (build_resolve epub_E build_web sample_fs) = Ret web_resolved
  /\ res_target_format web_resolved =
     match manifest_child epub_E sample_fs (res_target web_resolved) "format" with
     | Some f => Some f
     | None => res_target web_resolved
     end.
Proof.
  assert (Hres : result (build_resolve epub_E build_web sample_fs) = Ret web_resolved)
    by (vm_compute; reflexivity).
  split; [vm_compute; reflexivity | split; [exact Hres|]].
  exact (build_resolve_format epub_E build_web sample_fs _ _ _ (run_intro _ _ Hres)).
Defined.

Lemma build_missing_source_raises_witness :
  result (build_locate epub_E build_bare sample_fs) = Ret bare_located
  /\ result (build sample_cwd epub_E build_bare sample_fs) = Raise AttributeError.
Proof.
  assert (Hloc : result (build_locate epub_E build_bare sample_fs) = Ret bare_located)
    by (vm_compute; reflexivity).
  split; [exact Hloc|].
  assert (Htx : utils_target_xml epub_E (loc_target bare_located) sample_fs
                = Ret (Some (Xml.Element "target" {[ "name" := "bare" ]} None [])))
    by (vm_compute; reflexivity).
  rewrite (build_missing_source_raises sample_cwd epub_E build_bare sample_fs _ _ _ _
             (run_intro _ _ Hloc) Htx eq_refl).
  - reflexivity.
  - vm_compute; reflexivity.
Defined.

(** ** More about the preparation and the dispatch of [build] (lines 190-260) *)

Lemma str_is_true (x : option string) (s : string) : str_is x s = true -> x = Some s.
Proof.
  destruct x as [y|]; simpl; [|discriminate].
  intros H. apply String.eqb_eq in H. subst. reflexivity.
Qed.

Lemma filter_rmtree_free (tr : list event) :
  rmtree_free tr -> List.filter is_rmtree tr = [].
Proof.
  induction 1 as [|e tr He _ IH]; [reflexivity|]. simpl. rewrite He. exact IH.
Qed.

Lemma filter_builder_engine_free (tr : list event) :
  engine_free tr -> List.filter is_main_builder tr = [].
Proof.
  induction 1 as [|e tr He _ IH]; [reflexivity|]. simpl.
  destruct e as [| | | | |c seen| | | | | |]; try exact IH. discriminate He.
Qed.

Lemma engines_expected_refl cwd a r sp fs : engines_expected cwd a r sp fs fs [].
Proof. constructor. Qed.

Lemma engines_expected_app cwd a r sp (fs1 fs2 fs3 : FS) t1 t2 :
  engines_expected cwd a r sp fs1 fs2 t1 -> engines_expected cwd a r sp fs2 fs3 t2 ->
  engines_expected cwd a r sp fs1 fs3 (t1 ++ t2).
Proof. unfold engines_expected. intros H1 H2. apply Forall_app. split; assumption. Qed.

Lemma at_most_zero_refl fs : main_builders_at_most 0 fs fs [].
Proof. unfold main_builders_at_most. simpl. lia. Qed.

Lemma at_most_zero_app (fs1 fs2 fs3 : FS) t1 t2 :
  main_builders_at_most 0 fs1 fs2 t1 -> main_builders_at_most 0 fs2 fs3 t2 ->
  main_builders_at_most 0 fs1 fs3 (t1 ++ t2).
Proof.
  unfold main_builders_at_most. rewrite List.filter_app, length_app. lia.
Qed.

(** Calls to the builders add up along a sequence. *)
Lemma at_most_bind {A B} (m : prog A) (k : A -> prog B) (n1 n2 : nat) :
  respects (main_builders_at_most n1) m ->
  (forall x, respects (main_builders_at_most n2) (k x)) ->
  respects (main_builders_at_most (n1 + n2)) (bind m k).
Proof.
  intros Hm Hk fs. specialize (Hm fs). unfold bind.
  unfold main_builders_at_most in *.
  destruct (m fs) as [[[x|msg|e] fs1] t1]; simpl in *; try lia.
  specialize (Hk x fs1). destruct (k x fs1) as [[o fs2] t2]. simpl in *.
  rewrite List.filter_app, length_app. lia.
Qed.

Section MoreBuild.

Context (cwd : string) (E : externals).

(** The publication file that is chosen exists, or is the bundled one. *)
Lemma build_select_publication_ret sp pub fs p fs' tr :
  build_select_publication cwd E sp pub fs = (Ret p, fs', tr) ->
  isfile fs p = true \/ p = template_publication E.
Proof.
  unfold build_select_publication. intros H. prog_inv; subst;
    first [ right; reflexivity
          | left;
            match goal with
            | K : negb _ = false |- _ => apply negb_false_iff in K; exact K
            end ].
Qed.

(** X7: without a publication file from the command line, the manifest
    or a [publisher] string parameter, [build] stops with a [TypeError]
    right after the two validation steps: nothing is logged after them, no
    directory is made or removed, and no engine is called. *)
Theorem build_without_publication_raises a fs r fs1 t1 :
  build_resolve E a fs = (Ret r, fs1, t1) ->
  stringparams_of (arg_param a) !! "publisher" = None ->
  res_publication r = None ->
  utils_xml_syntax_check E (res_source r) fs = Ret tt ->
  utils_schema_validate E (res_source r) fs = Ret tt ->
  build cwd E a fs =
  (Raise TypeError, fs,
   t1 ++ [EvXmlSyntaxCheck (res_source r); EvSchemaValidate (res_source r)]).
Proof.
  intros Hres Hsp Hpub Hx Hs.
  destruct (respects_run _ _ _ _ _ _ (build_resolve_reads_only E a) Hres) as [-> _].
  unfold build. rewrite (bind_ret_run _ _ _ _ _ _ Hres).
  unfold build_prepare, build_validate, build_select_publication.
  rewrite Hsp, Hpub.
  unfold bind, emit, query, unwrap, ret, raise, test. rewrite Hx, Hs. reflexivity.
Qed.

(** X8: the publication file given to the engine is a file that existed
    when [build] started, or the bundled publication file. *)
Theorem build_publication_exists_or_bundled a fs c seen :
  In (EvEngine c seen) (trace (build cwd E a fs)) ->
  isfile fs (engine_publication c) = true
  \/ engine_publication c = template_publication E.
Proof.
  intros Hin.
  destruct (build_run cwd E a fs)
    as [(r & t1 & p & fs2 & t2 & Hr & Hq1 & Hp & Hq2 & Hb) | Hq].
  2:{ exfalso. eapply quiet_not_engine; [|exact Hin]; assumption. }
  rewrite Hb in Hin. unfold trace in Hin. simpl in Hin.
  apply build_prepare_ret in Hp as (_ & _ & [tsel Hsel] & _).
  apply build_select_publication_ret in Hsel.
  apply in_app_or in Hin as [Hin | Hin];
    [exfalso; eapply quiet_not_engine; [|exact Hin]; assumption|].
  apply in_app_or in Hin as [Hin | Hin];
    [exfalso; eapply quiet_not_engine; [|exact Hin]; assumption|].
  apply in_app_or in Hin as [Hin | Hin].
  { destruct (isdir fs2 (pre_output p)); simpl in Hin;
      [destruct Hin as [Hin|[]]; discriminate | destruct Hin]. }
  match type of Hin with
  | In _ (build_dispatch E a r p ?f).2 =>
      pose proof (build_dispatch_engines_given E a r p f) as Hg
  end.
  unfold engines_given, trace in Hg.
  apply (proj1 (List.Forall_forall _ _) Hg) in Hin as [_ Hc].
  rewrite Hc. exact Hsel.
Qed.

(** X9: when the syntax check of the source quits, so does [build], at
    once: the schema is not consulted, the output directory is not removed,
    and the file system is as it was. *)
Theorem build_syntax_error_quits a fs r fs1 t1 msg :
  build_resolve E a fs = (Ret r, fs1, t1) ->
  utils_xml_syntax_check E (res_source r) fs = Exit msg ->
  build cwd E a fs = (Exit msg, fs, t1 ++ [EvXmlSyntaxCheck (res_source r)]).
Proof.
  intros Hres Hx.
  destruct (respects_run _ _ _ _ _ _ (build_resolve_reads_only E a) Hres) as [-> _].
  unfold build. rewrite (bind_ret_run _ _ _ _ _ _ Hres).
  unfold build_prepare, build_validate.
  unfold bind, emit, query. rewrite Hx. reflexivity.
Qed.

(** X10: [build] removes at most one directory tree, the resolved output
    directory, and only once the source has passed both validation steps and
    the preparation has returned; the directory was there at that point. *)
Theorem build_removes_only_validated a fs d :
  In (EvRmtree d) (trace (build cwd E a fs)) ->
  exists r t1 p fs2 t2,
    build_resolve E a fs = (Ret r, fs, t1)
    /\ build_prepare cwd E a r fs = (Ret p, fs2, t2)
    /\ d = abspath cwd (res_output r)
    /\ isdir fs2 d = true
    /\ utils_xml_syntax_check E (res_source r) fs = Ret tt
    /\ utils_schema_validate E (res_source r) fs = Ret tt
    /\ List.filter is_rmtree (trace (build cwd E a fs)) = [EvRmtree d].
Proof.
  intros Hin.
  destruct (build_run cwd E a fs)
    as [(r & t1 & p & fs2 & t2 & Hr & Hq1 & Hp & Hq2 & Hb) | Hq].
  2:{ exfalso. eapply rmtree_free_not_in; [apply quiet_rmtree_free; exact Hq | exact Hin]. }
  exists r, t1, p, fs2, t2.
  pose proof (build_prepare_ret _ _ _ _ _ _ _ _ Hp) as (Hx & Hs & _ & _ & _ & Hout & _).
  rewrite Hb in Hin |- *. unfold trace in Hin |- *. simpl in Hin |- *.
  pose proof (build_dispatch_without_rmtree E a r p) as Hd.
  unfold respects, without_rmtree, trace in Hd.
  rewrite !List.filter_app.
  rewrite (filter_rmtree_free _ (quiet_rmtree_free _ Hq1)).
  rewrite (filter_rmtree_free _ (quiet_rmtree_free _ Hq2)).
  destruct (isdir fs2 (pre_output p)) eqn:Hdir.
  - rewrite (filter_rmtree_free _ (Hd _)). simpl.
    assert (Hd' : d = pre_output p).
    { apply in_app_or in Hin as [Hin | Hin];
        [exfalso; eapply rmtree_free_not_in; [apply quiet_rmtree_free; exact Hq1 | exact Hin]|].
      apply in_app_or in Hin as [Hin | Hin];
        [exfalso; eapply rmtree_free_not_in; [apply quiet_rmtree_free; exact Hq2 | exact Hin]|].
      apply in_app_or in Hin as [Hin | Hin].
      - destruct Hin as [Hin | []]. inversion Hin. reflexivity.
      - exfalso. eapply rmtree_free_not_in; [apply (Hd (rmtree (pre_output p) fs2)) | exact Hin]. }
    subst d. rewrite <- Hout. repeat split; auto.
  - exfalso.
    apply in_app_or in Hin as [Hin | Hin];
      [eapply rmtree_free_not_in; [apply quiet_rmtree_free; exact Hq1 | exact Hin]|].
    apply in_app_or in Hin as [Hin | Hin];
      [eapply rmtree_free_not_in; [apply quiet_rmtree_free; exact Hq2 | exact Hin]|].
    apply in_app_or in Hin as [[] | Hin].
    eapply rmtree_free_not_in; [apply (Hd fs2) | exact Hin].
Qed.

End MoreBuild.

Lemma build_without_publication_raises_witness :
  result (build_resolve epub_E build_web sample_fs) = Ret web_resolved
  /\ build sample_cwd epub_E build_web sample_fs =
     (Raise TypeError, sample_fs,
      trace (build_resolve epub_E build_web sample_fs)
      ++ [EvXmlSyntaxCheck "source/main.ptx"; EvSchemaValidate "source/main.ptx"]).
Proof.
  assert (Hres : result (build_resolve epub_E build_web sample_fs) = Ret web_resolved)
    by (vm_compute; reflexivity).
  split; [exact Hres|].
  apply (build_without_publication_raises sample_cwd epub_E build_web sample_fs
           web_resolved _ _ (run_intro _ _ Hres)).
  - reflexivity.
  - reflexivity.
  - vm_compute; reflexivity.
  - reflexivity.
Defined.

Lemma build_publication_exists_or_bundled_witness :
  exists c seen,
    first_engine (trace (build sample_cwd sample_E build_defaults sample_fs)) = Some (c, seen)
    /\ (isfile sample_fs (engine_publication c) = true
        \/ engine_publication c = template_publication sample_E).
Proof.
  assert (H : existsb is_engine
                (trace (build sample_cwd sample_E build_defaults sample_fs)) = true)
    by (vm_compute; reflexivity).
  destruct (existsb_engine_first _ H) as (c & seen & Hfirst).
  exists c, seen. split; [exact Hfirst|].
  destruct (first_engine_split _ _ _ Hfirst) as (tr1 & tr2 & Htr & _).
  apply (build_publication_exists_or_bundled sample_cwd sample_E build_defaults sample_fs
           c seen).
  rewrite Htr. apply in_or_app. right. left. reflexivity.
Defined.

Lemma build_syntax_error_quits_witness :
  result (build_resolve sample_E build_defaults sample_fs_no_source) = Ret sample_resolved
  /\ build sample_cwd sample_E build_defaults sample_fs_no_source =
     (Exit "XML syntax error", sample_fs_no_source,
      trace (build_resolve sample_E build_defaults sample_fs_no_source)
      ++ [EvXmlSyntaxCheck "source/main.ptx"]).
Proof.
  assert (Hres : result (build_resolve sample_E build_defaults sample_fs_no_source)
                 = Ret sample_resolved)
    by (vm_compute; reflexivity).
  split; [exact Hres|].
  apply (build_syntax_error_quits sample_cwd sample_E build_defaults sample_fs_no_source
           sample_resolved _ _ "XML syntax error" (run_intro _ _ Hres)).
  vm_compute; reflexivity.
Defined.

Lemma build_removes_only_validated_witness :
  List.find is_rmtree (trace (build sample_cwd sample_E build_defaults sample_fs))
  = Some (EvRmtree "/proj/output/html")
  /\ List.filter is_rmtree (trace (build sample_cwd sample_E build_defaults sample_fs))
     = [EvRmtree "/proj/output/html"]
  /\ utils_xml_syntax_check sample_E "source/main.ptx" sample_fs = Ret tt.
Proof.
  assert (H : List.find is_rmtree
                (trace (build sample_cwd sample_E build_defaults sample_fs))
              = Some (EvRmtree "/proj/output/html"))
    by (vm_compute; reflexivity).
  split; [exact H|].
  destruct (build_removes_only_validated sample_cwd sample_E build_defaults sample_fs
              "/proj/output/html" (proj1 (List.find_some _ _ H)))
    as (r & t1 & p & fs2 & t2 & Hr & _ & _ & _ & Hx & _ & Hf).
  split; [exact Hf|].
  assert (Hres : result (build_resolve sample_E build_defaults sample_fs)
                 = Ret sample_resolved) by (vm_compute; reflexivity).
  apply (f_equal result) in Hr. rewrite Hres in Hr. simpl in Hr.
  inversion Hr; subst r. exact Hx.
Defined.

Section MoreDispatch.

Context (cwd : string) (E : externals).

Lemma respects_cond_builder (b : bool) (c : engine_call) :
  respects (main_builders_at_most (if b then 1 else 0)) (if b then engine E c else ret tt).
Proof.
  intros fs. unfold main_builders_at_most, trace. destruct b.
  - unfold engine. destruct (builder E c fs) as [o fs']. simpl.
    destruct c; simpl; lia.
  - simpl. lia.
Qed.

Lemma at_most_mono {A} (m : prog A) (n1 n2 : nat) :
  n1 <= n2 ->
  respects (main_builders_at_most n1) m ->
  respects (main_builders_at_most n2) m.
Proof. intros Hle Hm fs. specialize (Hm fs). unfold main_builders_at_most in *. lia. Qed.

(** The three format tests exclude one another, so the three last steps
    of the dispatch make one builder call at most. *)
Lemma build_dispatch_one_builder a r p :
  respects (main_builders_at_most 1) (build_dispatch E a r p).
Proof.
  unfold build_dispatch. cbv zeta.
  set (b1 := str_is (res_target_format r) "html" && negb (arg_only_assets a)).
  set (b2 := str_is (res_target_format r) "latex" && negb (arg_only_assets a)).
  set (b3 := str_is (res_target_format r) "pdf" && negb (arg_only_assets a)).
  apply (at_most_mono _
           (0 + (0 + ((if b1 then 1 else 0) + ((if b2 then 1 else 0)
                                               + (if b3 then 1 else 0)))))).
  { subst b1 b2 b3. destruct (res_target_format r) as [tf|]; simpl; [|lia].
    destruct (String.eqb_spec tf "html") as [-> | Hhtml]; simpl;
      [destruct (arg_only_assets a); simpl; lia|].
    destruct (String.eqb_spec tf "latex") as [-> | Hlatex]; simpl;
      [destruct (arg_only_assets a); simpl; lia|].
    destruct (String.eqb tf "pdf"), (arg_only_assets a); simpl; lia. }
  apply at_most_bind.
  { respects_with at_most_zero_refl at_most_zero_app
      ltac:(solve [unfold main_builders_at_most; simpl; lia]). }
  intros _. apply at_most_bind.
  { respects_with at_most_zero_refl at_most_zero_app
      ltac:(solve [unfold main_builders_at_most; simpl; lia]). }
  intros _.
  apply at_most_bind; [apply respects_cond_builder | intros _].
  apply at_most_bind; [apply respects_cond_builder | intros _].
  apply respects_cond_builder.
Qed.

(** X11: a run of [build] calls at most one of the builders of a whole
    document ([builder.html], [builder.latex], [builder.pdf]). *)
Theorem build_at_most_one_builder a fs :
  length (List.filter is_main_builder (trace (build cwd E a fs))) <= 1.
Proof.
  destruct (build_run cwd E a fs)
    as [(r & t1 & p & fs2 & t2 & Hr & Hq1 & Hp & Hq2 & Hb) | Hq].
  2:{ rewrite (filter_builder_engine_free _ (quiet_engine_free _ Hq)). simpl. lia. }
  rewrite Hb. unfold trace. simpl.
  rewrite !List.filter_app.
  rewrite (filter_builder_engine_free _ (quiet_engine_free _ Hq1)).
  rewrite (filter_builder_engine_free _ (quiet_engine_free _ Hq2)).
  assert (H3 : List.filter is_main_builder
                 (if isdir fs2 (pre_output p) then [EvRmtree (pre_output p)] else []) = []).
  { destruct (isdir fs2 (pre_output p)); reflexivity. }
  rewrite H3. simpl.
  match goal with
  | |- context [(build_dispatch E a r p ?f).2] =>
      exact (build_dispatch_one_builder a r p f)
  end.
Qed.

(** The WeBWorK step of the dispatch. *)
Lemma webwork_step_expected a r (source publication webwork_output : string)
    (sp : gmap string string) :
  arg_webwork a = true ->
  webwork_output = PosixPath.dirname (PosixPath.abspath cwd (res_source r)) ->
  respects (engines_expected cwd a r sp)
    (server_params <-
       try_except
         (unwrap (KeyError "server") (sp !! "server"))
         (fun e =>
            let root_cause := exn_str e in
            log WARNING ("No server name, " +:+ root_cause +:+ ".  Using default "
                         +:+ webwork_default_server) ;;
            ret webwork_default_server) ;;
     engine E (Webwork source publication webwork_output sp server_params)).
Proof.
  intros Hw Hout fs. unfold bind, try_except, unwrap, ret, raise, log, emit, engine.
  unfold engines_expected, trace.
  destruct (sp !! "server") as [server|] eqn:Hs; simpl;
    match goal with
    | |- context [builder E ?c ?f] => destruct (builder E c f) as [[u|msg|e] fs']
    end; simpl; repeat constructor; simpl; auto; rewrite Hs; reflexivity.
Qed.

Lemma build_dispatch_expected a r p :
  pre_source p = abspath cwd (res_source r) ->
  pre_output p = abspath cwd (res_output r) ->
  respects (engines_expected cwd a r (pre_stringparams p)) (build_dispatch E a r p).
Proof.
  intros Hsrc Hout. unfold build_dispatch. cbv zeta.
  pose proof (engines_expected_app cwd a r (pre_stringparams p)) as Happ.
  pose proof (engines_expected_refl cwd a r (pre_stringparams p)) as Hrefl.
  apply respects_bind; [exact Happ | | intros _].
  { destruct (arg_webwork a) eqn:Hw.
    - apply webwork_step_expected; [exact Hw | rewrite Hsrc; reflexivity].
    - apply respects_ret. exact Hrefl. }
  apply respects_bind; [exact Happ | | intros _].
  { destruct (arg_diagrams a) eqn:Hd.
    - apply respects_engine. intros fs. unfold engines_expected.
      constructor; [simpl; auto | constructor].
    - respects_with Hrefl Happ ltac:(solve [unfold engines_expected; repeat constructor]). }
  apply respects_bind; [exact Happ | | intros _].
  { destruct (str_is (res_target_format r) "html") eqn:Hf;
      destruct (arg_only_assets a) eqn:Ho; simpl;
      try (apply respects_ret; exact Hrefl).
    apply respects_engine. intros fs. apply str_is_true in Hf.
    unfold engines_expected. constructor; [simpl; auto | constructor]. }
  apply respects_bind; [exact Happ | | intros _].
  { destruct (str_is (res_target_format r) "latex") eqn:Hf;
      destruct (arg_only_assets a) eqn:Ho; simpl;
      try (apply respects_ret; exact Hrefl).
    apply respects_engine. intros fs. apply str_is_true in Hf.
    unfold engines_expected. constructor; [simpl; auto | constructor]. }
  destruct (str_is (res_target_format r) "pdf") eqn:Hf;
    destruct (arg_only_assets a) eqn:Ho; simpl;
    try (apply respects_ret; exact Hrefl).
  apply respects_engine. intros fs. apply str_is_true in Hf.
  unfold engines_expected. constructor; [simpl; auto | constructor].
Qed.

(** X12: every engine call of [build] is behind its flag or its format
    and has the arguments that the command line and the resolved
    configuration fix: the WeBWorK call needs [-w], works in the directory
    of the absolute source and uses the [server] string parameter or else
    the default server; the diagrams call needs [-d] and gets
    [generated-assets] and the diagrams format; a builder of the whole
    document needs its format and no [--only-assets], and gets the absolute
    output directory.  All of them get the string parameters of [--param]. *)
Theorem build_engine_calls_expected a fs c seen :
  In (EvEngine c seen) (trace (build cwd E a fs)) ->
  exists r t1,
    build_resolve E a fs = (Ret r, fs, t1)
    /\ engine_call_expected cwd a r c
    /\ engine_stringparams c = stringparams_of (arg_param a).
Proof.
  intros Hin.
  destruct (build_run cwd E a fs)
    as [(r & t1 & p & fs2 & t2 & Hr & Hq1 & Hp & Hq2 & Hb) | Hq].
  2:{ exfalso. eapply quiet_not_engine; [|exact Hin]; assumption. }
  exists r, t1. split; [exact Hr|].
  rewrite Hb in Hin. unfold trace in Hin. simpl in Hin.
  apply build_prepare_ret in Hp as (_ & _ & _ & _ & Hsrc & Hout & Hsp & _).
  apply in_app_or in Hin as [Hin | Hin];
    [exfalso; eapply quiet_not_engine; [|exact Hin]; assumption|].
  apply in_app_or in Hin as [Hin | Hin];
    [exfalso; eapply quiet_not_engine; [|exact Hin]; assumption|].
  apply in_app_or in Hin as [Hin | Hin].
  { destruct (isdir fs2 (pre_output p)); simpl in Hin;
      [destruct Hin as [Hin|[]]; discriminate | destruct Hin]. }
  match type of Hin with
  | In _ (build_dispatch E a r p ?f).2 =>
      pose proof (build_dispatch_expected a r p Hsrc Hout f) as Hg
  end.
  unfold engines_expected, trace in Hg.
  apply (proj1 (List.Forall_forall _ _) Hg) in Hin as [Hc Hs].
  rewrite <- Hsp. split; assumption.
Qed.

(** X13: the [--pdf] flag is accepted and never read: a run of [build] is
    the same with it and without it. *)
Theorem build_ignores_pdf_flag a b fs :
  build cwd E (with_pdf b a) fs = build cwd E a fs.
Proof. destruct a. reflexivity. Qed.



End MoreDispatch.

Lemma build_engine_calls_expected_witness :
  exists c seen,
    first_engine (trace (build sample_cwd sample_E build_assets sample_fs)) = Some (c, seen)
    /\ engine_call_expected sample_cwd build_assets sample_resolved c
    /\ engine_stringparams c !! "server" = Some "https://example.org:8080".
Proof.
  assert (H : existsb is_engine
                (trace (build sample_cwd sample_E build_assets sample_fs)) = true)
    by (vm_compute; reflexivity).
  destruct (existsb_engine_first _ H) as (c & seen & Hfirst).
  exists c, seen. split; [exact Hfirst|].
  destruct (first_engine_split _ _ _ Hfirst) as (tr1 & tr2 & Htr & _).
  destruct (build_engine_calls_expected sample_cwd sample_E build_assets sample_fs c seen)
    as (r & t1 & Hr & Hc & Hs).
  { rewrite Htr. apply in_or_app. right. left. reflexivity. }
  assert (Hres : result (build_resolve sample_E build_assets sample_fs)
                 = Ret sample_resolved) by (vm_compute; reflexivity).
  apply (f_equal result) in Hr. rewrite Hres in Hr. simpl in Hr.
  inversion Hr; subst r.
  split; [exact Hc|]. rewrite Hs. vm_compute; reflexivity.
Defined.


(** ** [new], [init], [publish] and [main] *)

(** [l.index(x)] finds the first place of [x]. *)
Lemma index_of_map_lookup (f : string -> string) (x : string) (l : list string) (i : nat) :
  index_of x (List.map f l) = Some i ->
  exists y, l !! i = Some y /\ f y = x
            /\ forall j z, j < i -> l !! j = Some z -> f z <> x.
Proof.
  revert i. induction l as [|y l IH]; intros i H; simpl in H; [discriminate|].
  destruct (String.eqb_spec (f y) x) as [Heq | Hne].
  - inversion H; subst i. exists y. repeat split; auto. intros j z Hj. lia.
  - destruct (index_of x (List.map f l)) as [i'|] eqn:Hi; [|discriminate].
    simpl in H. inversion H; subst i.
    destruct (IH i' eq_refl) as (y' & Hy & Hf & Hfirst).
    exists y'. repeat split; auto.
    intros [|j] z Hj Hz; simpl in Hz.
    + inversion Hz; subst z. exact Hne.
    + apply (Hfirst j z); [lia | exact Hz].
Qed.

Section MoreNew.

Context (cwd : string) (E : externals).

(** [new], with the body of its [with] statement named. *)
Lemma new_eq a :
  new cwd E a =
  (let directory := new_directory a in
   let directory_fullpath := abspath cwd directory in
   found <- query (utils_project_path E (Some directory_fullpath)) ;;
   match found with
   | Some _ =>
       where_ <- query (utils_project_path E (Some directory_fullpath)) ;;
       log WARNING ("A project already exists in `" +:+ PyStr.fmt where_ +:+ "`.") ;;
       log WARNING "No new project will be generated."
   | None =>
       log INFO ("Generating new PreTeXt project in `" +:+ directory_fullpath
                 +:+ "` using `" +:+ template_name (new_template a) +:+ "` template.") ;;
       let static_dir := PosixPath.dirname (static_file E) in
       archive <-
         match new_url_template a with
         | Some url_template =>
             emit (EvHttpGet url_template) ;;
             content <- query (fun _ => requests_get E url_template) ;;
             query (fun _ => ZipFile_bytes E content)
         | None =>
             let template_path :=
               PosixPath.join static_dir
                 ["templates"; template_name (new_template a) +:+ ".zip"] in
             query (ZipFile_path E template_path)
         end ;;
       let filenames := List.map PosixPath.basename (namelist E archive) in
       project_ptx_index <- unwrap ValueError (index_of "project.ptx" filenames) ;;
       project_ptx_path <- unwrap IndexError (namelist E archive !! project_ptx_index) ;;
       let project_dir_path := PosixPath.dirname project_ptx_path in
       tmpdirname <- effect (TemporaryDirectory E) ;;
       finally (new_body E a archive project_dir_path tmpdirname)
               (shutil_rmtree tmpdirname) ;;
       log INFO ("Success! Open `" +:+ directory_fullpath
                 +:+ "/source/main.ptx` to edit your document") ;;
       log INFO ("Then try to `pretext build` and `pretext view` from within `"
                 +:+ directory_fullpath +:+ "`.")
   end)%prog.
Proof. reflexivity. Qed.

(** A run of [new] that gets to its [with] statement: the body runs in the
    temporary directory, which is removed whatever the body does, and the
    two closing messages are logged when the body has returned. *)
Lemma new_run a fs (archive : zip_archive E) i ptx tmp fs1 :
  utils_project_path E (Some (abspath cwd (new_directory a))) fs = Ret None ->
  new_opens E a fs archive ->
  index_of "project.ptx" (List.map PosixPath.basename (namelist E archive)) = Some i ->
  namelist E archive !! i = Some ptx ->
  TemporaryDirectory E fs = (Ret tmp, fs1) ->
  exists pre post,
    new cwd E a fs =
    (match result (new_body E a archive (PosixPath.dirname ptx) tmp fs1) with
     | Ret _ => Ret tt
     | Exit msg => Exit msg
     | Raise e => Raise e
     end,
     rmtree tmp (final_fs (new_body E a archive (PosixPath.dirname ptx) tmp fs1)),
     pre ++ trace (new_body E a archive (PosixPath.dirname ptx) tmp fs1)
     ++ EvRmtree tmp :: post)
    /\ Forall (fun e => match e with EvLog _ _ | EvHttpGet _ => True | _ => False end)
         (pre ++ post).
Proof.
  intros Hnone Hopen Hidx Hnth Htmp.
  unfold new_opens in Hopen. rewrite new_eq. cbv zeta.
  destruct (new_url_template a) as [url|].
  - destruct Hopen as (content & Hget & Hzip).
    unfold bind, query, log, emit, unwrap, ret, raise, effect, finally, shutil_rmtree.
    rewrite Hnone, Hget, Hzip, Hidx, Hnth, Htmp. cbn [app].
    destruct (new_body E a archive (PosixPath.dirname ptx) tmp fs1) as [[[u|msg|e] fsb] tb];
      unfold result, final_fs, trace; cbn [fst snd app].
    + eexists [_; _], [_; _]. split; [rewrite <- ?app_assoc, ?app_nil_r; reflexivity | repeat constructor].
    + eexists [_; _], []. split; [rewrite <- ?app_assoc, ?app_nil_r; reflexivity | repeat constructor].
    + eexists [_; _], []. split; [rewrite <- ?app_assoc, ?app_nil_r; reflexivity | repeat constructor].
  - unfold bind, query, log, emit, unwrap, ret, raise, effect, finally, shutil_rmtree.
    rewrite Hnone, Hopen, Hidx, Hnth, Htmp. cbn [app].
    destruct (new_body E a archive (PosixPath.dirname ptx) tmp fs1) as [[[u|msg|e] fsb] tb];
      unfold result, final_fs, trace; cbn [fst snd app].
    + eexists [_], [_; _]. split; [rewrite <- ?app_assoc, ?app_nil_r; reflexivity | repeat constructor].
    + eexists [_], []. split; [rewrite <- ?app_assoc, ?app_nil_r; reflexivity | repeat constructor].
    + eexists [_], []. split; [rewrite <- ?app_assoc, ?app_nil_r; reflexivity | repeat constructor].
Qed.

(** The body extracts members of the archive that start with the prefix,
    into the temporary directory, and copies once at most. *)
Lemma new_body_events a (archive : zip_archive E) prefix tmp fs :
  Forall (new_event_expected E a archive prefix tmp)
    (trace (new_body E a archive prefix tmp fs)).
Proof.
  unfold new_body. cbv zeta.
  assert (Hloop : forall l fs0,
             (forall m, In m l -> PyStr.startswith prefix m = true
                                  /\ In m (namelist E archive)) ->
             Forall (new_event_expected E a archive prefix tmp)
               (trace (for_each l
                         (fun filepath =>
                            emit (EvExtract filepath tmp) ;;
                            effect (archive_extract E archive filepath tmp))%prog fs0))).
  { induction l as [|m l IH]; intros fs0 Hl; [constructor|].
    change (for_each (m :: l) ?body) with (bind (body m) (fun _ => for_each l body)).
    unfold bind at 1. unfold bind at 1. unfold emit, effect.
    destruct (archive_extract E archive m tmp fs0) as [[u|msg|e] fs'] eqn:Hx;
      unfold trace; cbn [fst snd app].
    - specialize (IH fs' (fun m' Hm' => Hl m' (or_intror Hm'))).
      destruct (for_each l _ fs') as [[r fs2] t2]. unfold trace in IH |- *. cbn [snd app] in *.
      constructor; [|exact IH].
      simpl. destruct (Hl m (or_introl eq_refl)). auto.
    - constructor; [|constructor]. simpl. destruct (Hl m (or_introl eq_refl)). auto.
    - constructor; [|constructor]. simpl. destruct (Hl m (or_introl eq_refl)). auto. }
  specialize (Hloop (List.filter (PyStr.startswith prefix) (namelist E archive)) fs).
  unfold bind at 1.
  match goal with
  | |- context [for_each ?l ?body fs] => destruct (for_each l body fs) as [[[u|msg|e] fsl] tl]
  end; unfold trace in Hloop |- *; cbn [snd] in Hloop |- *.
  2,3: apply Hloop; intros m Hm; apply List.filter_In in Hm; tauto.
  unfold bind, emit, effect.
  destruct (shutil_copytree E (PosixPath.join tmp [prefix]) (new_directory a) fsl)
    as [o fsc]; cbn [snd app].
  apply Forall_app. split.
  - apply Hloop. intros m Hm. apply List.filter_In in Hm. tauto.
  - constructor; [simpl; auto | constructor].
Qed.

(** X15: when the archive of the template holds no [project.ptx], [new]
    stops with the [ValueError] of [list.index] before it has made a
    temporary directory or written anything. *)
Theorem new_without_manifest_in_archive a fs (archive : zip_archive E) :
  utils_project_path E (Some (abspath cwd (new_directory a))) fs = Ret None ->
  new_opens E a fs archive ->
  index_of "project.ptx" (List.map PosixPath.basename (namelist E archive)) = None ->
  new cwd E a fs =
  (Raise ValueError, fs,
   EvLog INFO ("Generating new PreTeXt project in `" +:+ abspath cwd (new_directory a)
               +:+ "` using `" +:+ template_name (new_template a) +:+ "` template.")
   :: match new_url_template a with
      | Some url_template => [EvHttpGet url_template]
      | None => []
      end).
Proof.
  intros Hnone Hopen Hidx. unfold new_opens in Hopen. rewrite new_eq. cbv zeta.
  unfold bind, query, log, emit, unwrap, ret, raise.
  rewrite Hnone. destruct (new_url_template a) as [url|].
  - destruct Hopen as (content & Hget & Hzip). rewrite Hget, Hzip, Hidx. reflexivity.
  - rewrite Hopen, Hidx. reflexivity.
Qed.

(** X16: once [new] has made its temporary directory, nothing of it is
    left when [new] ends, whether the extraction and the copy have succeeded
    or not; [new] fails exactly when one of these two fails. *)
Theorem new_removes_temporary_directory a fs (archive : zip_archive E) i tmp fs1 :
  utils_project_path E (Some (abspath cwd (new_directory a))) fs = Ret None ->
  new_opens E a fs archive ->
  index_of "project.ptx" (List.map PosixPath.basename (namelist E archive)) = Some i ->
  TemporaryDirectory E fs = (Ret tmp, fs1) ->
  exists ptx,
    namelist E archive !! i = Some ptx
    /\ (forall q, under tmp q = true -> final_fs (new cwd E a fs) !! q = None)
    /\ In (EvRmtree tmp) (trace (new cwd E a fs))
    /\ (result (new cwd E a fs) = Ret tt <->
        result (new_body E a archive (PosixPath.dirname ptx) tmp fs1) = Ret tt).
Proof.
  intros Hnone Hopen Hidx Htmp.
  destruct (index_of_map_lookup _ _ _ _ Hidx) as (ptx & Hnth & _).
  exists ptx. split; [exact Hnth|].
  destruct (new_run a fs archive i ptx tmp fs1 Hnone Hopen Hidx Hnth Htmp)
    as (pre & post & Hrun & _).
  rewrite Hrun. unfold final_fs at 1, trace at 1, result at 1. cbn [fst snd].
  split; [intros q Hq; apply rmtree_under; exact Hq | split].
  - apply in_or_app. right. apply in_or_app. right. left. reflexivity.
  - destruct (result (new_body E a archive (PosixPath.dirname ptx) tmp fs1)) as [[]|msg|e];
      split; intros H; try reflexivity; discriminate.
Qed.

(** X17: [new] extracts only members of the archive whose name starts with
    the directory of the first [project.ptx] of the archive, all of them
    into the temporary directory; it copies from that directory below the
    temporary one to the directory as it was given; it removes nothing but
    the temporary directory; and it calls nothing else. *)
Theorem new_extracts_project_directory_only a fs (archive : zip_archive E) i tmp fs1 :
  utils_project_path E (Some (abspath cwd (new_directory a))) fs = Ret None ->
  new_opens E a fs archive ->
  index_of "project.ptx" (List.map PosixPath.basename (namelist E archive)) = Some i ->
  TemporaryDirectory E fs = (Ret tmp, fs1) ->
  exists ptx,
    namelist E archive !! i = Some ptx
    /\ PosixPath.basename ptx = "project.ptx"
    /\ (forall j other, j < i -> namelist E archive !! j = Some other ->
                        PosixPath.basename other <> "project.ptx")
    /\ Forall (new_event_expected E a archive (PosixPath.dirname ptx) tmp)
         (trace (new cwd E a fs)).
Proof.
  intros Hnone Hopen Hidx Htmp.
  destruct (index_of_map_lookup _ _ _ _ Hidx) as (ptx & Hnth & Hbase & Hfirst).
  exists ptx. repeat split; auto.
  destruct (new_run a fs archive i ptx tmp fs1 Hnone Hopen Hidx Hnth Htmp)
    as (pre & post & Hrun & Hlogs).
  rewrite Hrun. unfold trace at 1. cbn [snd].
  apply Forall_app in Hlogs as [Hpre Hpost].
  assert (Hweak : forall l,
             Forall (fun e => match e with EvLog _ _ | EvHttpGet _ => True | _ => False end) l ->
             Forall (new_event_expected E a archive (PosixPath.dirname ptx) tmp) l).
  { intros l Hl. eapply Forall_impl; [exact Hl|]. intros [] He; simpl; auto; destruct He. }
  apply Forall_app. split; [apply Hweak; exact Hpre|].
  apply Forall_app. split; [apply new_body_events|].
  constructor; [reflexivity | apply Hweak; exact Hpost].
Qed.

End MoreNew.

Lemma new_without_manifest_in_archive_witness :
  result (new sample_cwd (with_archive sample_E ["book/source/main.ptx"]) new_defaults
            bare_fs)
  = Raise ValueError
  /\ final_fs (new sample_cwd (with_archive sample_E ["book/source/main.ptx"]) new_defaults
                 bare_fs)
     = bare_fs.
Proof.
  assert (Hnone : utils_project_path (with_archive sample_E ["book/source/main.ptx"])
                    (Some (abspath sample_cwd (new_directory new_defaults))) bare_fs
                  = Ret None) by (vm_compute; reflexivity).
  rewrite (new_without_manifest_in_archive sample_cwd
             (with_archive sample_E ["book/source/main.ptx"]) new_defaults bare_fs
             ["book/source/main.ptx"] Hnone eq_refl eq_refl).
  split; reflexivity.
Defined.

Lemma new_removes_temporary_directory_witness :
  result (new sample_cwd sample_E new_defaults bare_fs) = Ret tt
  /\ (forall q, under "/tmp/tmpdir" q = true ->
                final_fs (new sample_cwd sample_E new_defaults bare_fs) !! q = None)
  /\ In (EvRmtree "/tmp/tmpdir") (trace (new sample_cwd sample_E new_defaults bare_fs)).
Proof.
  assert (Hnone : utils_project_path sample_E
                    (Some (abspath sample_cwd (new_directory new_defaults))) bare_fs
                  = Ret None) by (vm_compute; reflexivity).
  split; [vm_compute; reflexivity|].
  destruct (new_removes_temporary_directory sample_cwd sample_E new_defaults bare_fs
              ["book/project.ptx"; "book/source/main.ptx"] 0 "/tmp/tmpdir" _
              Hnone eq_refl eq_refl eq_refl)
    as (ptx & _ & Hgone & Hin & _).
  split; [exact Hgone | exact Hin].
Defined.

(** A member next to the project directory whose name merely starts with the
    same letters is extracted as well: here [book2/notes.txt], but not
    [article/project.ptx]. *)
Lemma new_extracts_project_directory_only_witness :
  Forall (new_event_expected
            (with_archive sample_E
               ["book/project.ptx"; "book2/notes.txt"; "article/project.ptx"])
            new_defaults
            ["book/project.ptx"; "book2/notes.txt"; "article/project.ptx"]
            "book" "/tmp/tmpdir")
    (trace (new sample_cwd
              (with_archive sample_E
                 ["book/project.ptx"; "book2/notes.txt"; "article/project.ptx"])
              new_defaults bare_fs))
  /\ flat_map (fun e => match e with EvExtract member _ => [member] | _ => [] end)
       (trace (new sample_cwd
                 (with_archive sample_E
                    ["book/project.ptx"; "book2/notes.txt"; "article/project.ptx"])
                 new_defaults bare_fs))
     = ["book/project.ptx"; "book2/notes.txt"].
Proof.
  assert (Hnone : utils_project_path
                    (with_archive sample_E
                       ["book/project.ptx"; "book2/notes.txt"; "article/project.ptx"])
                    (Some (abspath sample_cwd (new_directory new_defaults))) bare_fs
                  = Ret None) by (vm_compute; reflexivity).
  split; [|vm_compute; reflexivity].
  destruct (new_extracts_project_directory_only sample_cwd
              (with_archive sample_E
                 ["book/project.ptx"; "book2/notes.txt"; "article/project.ptx"])
              new_defaults bare_fs
              ["book/project.ptx"; "book2/notes.txt"; "article/project.ptx"]
              0 "/tmp/tmpdir" _ Hnone eq_refl eq_refl eq_refl)
    as (ptx & Hnth & _ & _ & Hall).
  simpl in Hnth. inversion Hnth; subst ptx. exact Hall.
Defined.

Section MoreInit.

Context (cwd : string) (E : externals).

(** A run of [init] where no project is found comes down to the copy. *)
Lemma init_run fs :
  utils_project_path E (Some (abspath cwd ".")) fs = Ret None ->
  exists l1 l2 l3,
    init cwd E fs =
    match copyfile
            (PosixPath.join (PosixPath.dirname (static_file E)) ["templates"; "project.ptx"])
            (PosixPath.join (abspath cwd ".") ["project.ptx"]) fs with
    | Some fs' =>
        (Ret tt, fs',
         [EvLog INFO l1;
          EvCopyfile
            (PosixPath.join (PosixPath.dirname (static_file E)) ["templates"; "project.ptx"])
            (PosixPath.join (abspath cwd ".") ["project.ptx"]);
          EvLog INFO l2; EvLog INFO l3])
    | None =>
        (Raise (copyfile_error
                  (PosixPath.join (PosixPath.dirname (static_file E))
                     ["templates"; "project.ptx"])
                  (PosixPath.join (abspath cwd ".") ["project.ptx"]) fs),
         fs, [EvLog INFO l1])
    end.
Proof.
  intros Hnone. unfold init. cbv zeta.
  unfold bind, query, log, emit, shutil_copyfile. rewrite Hnone.
  eexists _, _, _.
  destruct (copyfile _ _ fs); reflexivity.
Qed.

(** A copy that returns has found the file, and a place for it that is no
    directory, and has written there. *)
Lemma copyfile_some src dst fs fs' :
  copyfile src dst fs = Some fs' ->
  exists data,
    fs !! resolve src = Some (File data)
    /\ isdir fs (PosixPath.dirname dst) = true
    /\ isdir fs dst = false
    /\ fs' = <[resolve dst := File data]> fs.
Proof.
  unfold copyfile, isdir.
  destruct (fs !! resolve src) as [[data|]|]; try discriminate.
  destruct (String.eqb (resolve src) (resolve dst)); try discriminate.
  destruct (fs !! resolve dst) as [[data'|]|] eqn:Hdst; try discriminate;
    destruct (fs !! resolve (PosixPath.dirname dst)) as [[|]|]; try discriminate;
    intros H; inversion H; subst; exists data; auto.
Qed.

(** A run of [init] where a project is found. *)
Lemma init_found fs p :
  utils_project_path E (Some (abspath cwd ".")) fs = Ret (Some p) ->
  init cwd E fs =
  (Ret tt, fs,
   [EvLog WARNING ("A project already exists in `" +:+ p +:+ "`.");
    EvLog WARNING "No project manifest will be generated."]).
Proof.
  intros Hp. unfold init. cbv zeta. unfold bind, query, log, emit.
  rewrite Hp. cbv beta iota. rewrite Hp. reflexivity.
Qed.

(** X18: in a directory where no project is found, a run of [init] that
    returns has found the bundled manifest and the directory, and has done
    one thing: [project.ptx] of the directory now has the contents of the
    bundled manifest, and every other path is as it was.  Paths are taken as
    the system resolves them; what was at [project.ptx] was no directory. *)
Theorem init_writes_manifest_only fs :
  utils_project_path E (Some (abspath cwd ".")) fs = Ret None ->
  result (init cwd E fs) = Ret tt ->
  exists data,
    fs !! resolve (PosixPath.join (PosixPath.dirname (static_file E))
                     ["templates"; "project.ptx"])
    = Some (File data)
    /\ isdir fs (PosixPath.dirname (PosixPath.join (abspath cwd ".") ["project.ptx"])) = true
    /\ isdir fs (PosixPath.join (abspath cwd ".") ["project.ptx"]) = false
    /\ final_fs (init cwd E fs) !! resolve (PosixPath.join (abspath cwd ".") ["project.ptx"])
       = Some (File data)
    /\ (forall q, q <> resolve (PosixPath.join (abspath cwd ".") ["project.ptx"]) ->
                  final_fs (init cwd E fs) !! q = fs !! q)
    /\ List.filter (fun e => negb (is_log e)) (trace (init cwd E fs))
       = [EvCopyfile
            (PosixPath.join (PosixPath.dirname (static_file E)) ["templates"; "project.ptx"])
            (PosixPath.join (abspath cwd ".") ["project.ptx"])].
Proof.
  intros Hnone Hret. destruct (init_run fs Hnone) as (l1 & l2 & l3 & Hrun).
  rewrite Hrun in Hret |- *. clear Hrun.
  set (tpl := PosixPath.join (PosixPath.dirname (static_file E))
                ["templates"; "project.ptx"]) in *.
  set (dst := PosixPath.join (abspath cwd ".") ["project.ptx"]) in *.
  destruct (copyfile tpl dst fs) as [fs'|] eqn:Hcopy; try discriminate Hret.
  apply copyfile_some in Hcopy as (data & Htpl & Hdir & Hnodir & ->).
  exists data. unfold final_fs, trace. cbn [fst snd].
  split; [exact Htpl | split; [exact Hdir | split; [exact Hnodir | split ]]];
    [apply lookup_insert_eq | split].
  - intros q Hq. apply lookup_insert_ne. congruence.
  - reflexivity.
Qed.

(** X19: [init] is idempotent as soon as the locator finds a project where
    [project.ptx] is a file: after a run of [init] that has returned, a
    second run changes nothing and only reports the project that exists. *)
Theorem init_twice fs :
  locator_sound E ->
  result (init cwd E fs) = Ret tt ->
  exists p,
    init cwd E (final_fs (init cwd E fs)) =
    (Ret tt, final_fs (init cwd E fs),
     [EvLog WARNING ("A project already exists in `" +:+ p +:+ "`.");
      EvLog WARNING "No project manifest will be generated."]).
Proof.
  intros Hsound Hret.
  assert (Hfound : exists p, utils_project_path E (Some (abspath cwd "."))
                               (final_fs (init cwd E fs)) = Ret (Some p)).
  { destruct (utils_project_path E (Some (abspath cwd ".")) fs) as [[p|]|msg|e] eqn:Hp.
    - exists p. rewrite (init_found fs p Hp). exact Hp.
    - destruct (init_run fs Hp) as (l1 & l2 & l3 & Hrun).
      rewrite Hrun in Hret |- *. clear Hrun.
      set (tpl := PosixPath.join (PosixPath.dirname (static_file E))
                    ["templates"; "project.ptx"]) in *.
      set (dst := PosixPath.join (abspath cwd ".") ["project.ptx"]) in *.
      destruct (copyfile tpl dst fs) as [fs'|] eqn:Hcopy; try discriminate Hret.
      apply copyfile_some in Hcopy as (data & _ & _ & _ & ->).
      apply Hsound. unfold final_fs. cbn [fst snd]. unfold isfile. fold dst.
      rewrite lookup_insert_eq. reflexivity.
    - exfalso. revert Hret. unfold init. cbv zeta. unfold bind, query. rewrite Hp.
      discriminate.
    - exfalso. revert Hret. unfold init. cbv zeta. unfold bind, query. rewrite Hp.
      discriminate. }
  destruct Hfound as [p Hp]. exists p.
  exact (init_found _ p Hp).
Qed.

End MoreInit.

Lemma sample_locator_sound (manifest : Xml.element) : locator_sound (sample_externals manifest).
Proof.
  intros d fs Hfile. exists d. simpl.
  change (PosixPath.join d ["project.ptx"]) with (PosixPath.join2 d "project.ptx") in Hfile.
  rewrite Hfile. reflexivity.
Qed.

Lemma init_writes_manifest_only_witness :
  final_fs (init sample_cwd sample_E bare_fs) !! "/proj/project.ptx"
  = Some (File "<project/>")
  /\ final_fs (init sample_cwd sample_E bare_fs) !! "/proj/source/main.ptx"
     = bare_fs !! "/proj/source/main.ptx".
Proof.
  assert (Hnone : utils_project_path sample_E (Some (abspath sample_cwd ".")) bare_fs
                  = Ret None) by (vm_compute; reflexivity).
  assert (Hret : result (init sample_cwd sample_E bare_fs) = Ret tt)
    by (vm_compute; reflexivity).
  destruct (init_writes_manifest_only sample_cwd sample_E bare_fs Hnone Hret)
    as (data & Htpl & _ & _ & Hnew & Hframe & _).
  assert (Hdata : bare_fs !! "/pkg/static/templates/project.ptx" = Some (File "<project/>"))
    by (vm_compute; reflexivity).
  change (resolve (PosixPath.join (PosixPath.dirname (static_file sample_E))
                     ["templates"; "project.ptx"]))
    with "/pkg/static/templates/project.ptx" in Htpl.
  rewrite Hdata in Htpl. inversion Htpl; subst data.
  split; [exact Hnew|]. apply Hframe. discriminate.
Defined.

Lemma init_twice_witness :
  exists p,
    init sample_cwd sample_E (final_fs (init sample_cwd sample_E bare_fs)) =
    (Ret tt, final_fs (init sample_cwd sample_E bare_fs),
     [EvLog WARNING ("A project already exists in `" +:+ p +:+ "`.");
      EvLog WARNING "No project manifest will be generated."]).
Proof.
  apply (init_twice sample_cwd sample_E bare_fs (sample_locator_sound sample_manifest)).
  vm_compute; reflexivity.
Defined.

Section MoreGroup.

Context (cwd : string) (E : externals).
Context (core_set_verbosity : Z -> FS -> outcome unit * FS).
Context (target_publish : project_target_t E -> FS -> outcome unit * FS).

(** X20: [publish] with a target that the project does not have ends in
    an [AttributeError]; it has changed and logged nothing, and
    [target.publish] has not been called. *)
Theorem publish_unknown_target_raises target fs proj :
  Project E fs = Ret proj ->
  project_target E proj target fs = Ret None ->
  publish E target_publish target fs = (Raise AttributeError, fs, []).
Proof.
  intros Hproj Htarget. unfold publish. cbv zeta.
  unfold bind, query, unwrap, raise. rewrite Hproj, Htarget. reflexivity.
Qed.

(** X21: when the group callback finds a project that encloses the working
    directory, [build] runs in the root directory of that project, as the
    system names it: relative paths of the command line and of the manifest
    are resolved from there, not from the directory the command was started
    in. *)
Theorem main_then_build_in_project_root level a fs fs1 dir :
  core_set_verbosity
    (if (level =? 10)%Z then 2%Z else if (level =? 50)%Z then 0%Z else 1%Z) fs
  = (Ret tt, fs1) ->
  utils_project_path E None fs1 = Ret (Some dir) ->
  isdir fs1 (PosixPath.abspath cwd dir) = true ->
  main_then_build cwd E core_set_verbosity level a fs =
  (result (build (resolve (PosixPath.abspath cwd dir)) E a fs1),
   final_fs (build (resolve (PosixPath.abspath cwd dir)) E a fs1),
   EvLog INFO ("PreTeXt project found in `" +:+ dir +:+ "`.")
   :: trace (build (resolve (PosixPath.abspath cwd dir)) E a fs1)).
Proof.
  intros Hv Hp Hdir. unfold main_then_build.
  unfold isdir in Hdir.
  destruct (fs1 !! resolve (PosixPath.abspath cwd dir)) as [[|]|] eqn:Hlook;
    try discriminate.
  assert (Hmain :
            main cwd E core_set_verbosity level fs =
            (Ret (resolve (PosixPath.abspath cwd dir)), fs1,
             [EvLog INFO ("PreTeXt project found in `" +:+ dir +:+ "`.")])).
  { unfold main. cbv zeta. unfold bind, effect, query, log, emit, unwrap, ret, os_chdir.
    rewrite Hv. cbv beta iota. repeat (rewrite Hp; cbv beta iota).
    cbv zeta. rewrite Hlook. reflexivity. }
  rewrite (bind_ret_run _ _ _ _ _ _ Hmain). reflexivity.
Qed.

End MoreGroup.

Lemma publish_unknown_target_raises_witness :
  project_target sample_E sample_manifest (Some "epub") sample_fs = Ret None
  /\ publish sample_E (fun _ fs => (Ret tt, fs)) (Some "epub") sample_fs
     = (Raise AttributeError, sample_fs, []).
Proof.
  assert (H : project_target sample_E sample_manifest (Some "epub") sample_fs = Ret None)
    by (vm_compute; reflexivity).
  split; [exact H|].
  exact (publish_unknown_target_raises sample_E (fun _ fs => (Ret tt, fs)) (Some "epub")
           sample_fs sample_manifest eq_refl H).
Defined.

(** [pretext build], started in [/proj/source], runs in [/proj]. *)
Lemma main_then_build_in_project_root_witness :
  main_then_build "/proj/source" sample_E (fun _ fs => (Ret tt, fs)) 20 build_defaults
    sample_fs
  = (result (build "/proj" sample_E build_defaults sample_fs),
     final_fs (build "/proj" sample_E build_defaults sample_fs),
     EvLog INFO "PreTeXt project found in `/proj`."
     :: trace (build "/proj" sample_E build_defaults sample_fs)).
Proof.
  apply (main_then_build_in_project_root "/proj/source" sample_E (fun _ fs => (Ret tt, fs))
           20 build_defaults sample_fs sample_fs "/proj").
  - reflexivity.
  - vm_compute; reflexivity.
  - vm_compute; reflexivity.
Defined.
